(** * Channel statistics of multi-channel recordings: [plot_hdf5_stats.py]

    A shallow embedding of the statistics script and of the parts of NumPy
    and of the [nevroutil] helper module it relies on, followed by the
    properties of the statistic functions, of the aggregation and
    normalisation steps and of the entry point [main].

    Numbers are IEEE 754 binary64 values (the kernel's primitive floats),
    as NumPy's [float64]; Python integers are [Z]. *)

From Stdlib Require Import ZArith List Floats Lia.
From Stdlib Require Import Ascii String.
From stdpp Require Import base option list gmap strings.

#[local] Open Scope Z_scope.
#[local] Open Scope string_scope.

(** ** Exceptions and fallible computations *)

Inductive exn : Type :=
| AssertionError
| NotImplementedError
| ValueError
| LookupError
| AttributeError
| IOError.

Inductive result (A : Type) : Type :=
| Ok (a : A)
| Raise (e : exn).
Arguments Ok {A} a.
Arguments Raise {A} e.

#[global] Instance result_ret : MRet result := fun _ a => Ok a.

#[global] Instance result_bind : MBind result := fun _ _ k r =>
  match r with
  | Ok a => k a
  | Raise e => Raise e
  end.

Fixpoint all_ok {A} (rs : list (result A)) : result (list A) :=
  match rs with
  | [] => Ok []
  | r :: rs' => a ← r; l ← all_ok rs'; Ok (a :: l)
  end.

(** ** NumPy arrays *)

Module Np.

(** [int(z)] stored into, or combined with, a [float64]: the integer
    rounded to the nearest binary64 value. *)
Definition of_int (z : Z) : float :=
  SF2Prim (binary_normalize prec emax z 0 false).

(** The items an array of the script can hold: a Python integer (a sample
    count), a [float64], or, in an array of objects, a one-dimensional
    [float64] array. *)
Inductive cell : Type :=
| CInt (z : Z)
| CFloat (x : float)
| CVec (v : list float).

(** Arrays of rank one and two. An array of rank two records its number
    of columns, which its shape has even when it has no row. *)
Inductive ndarray : Type :=
| A1 (cells : list cell)
| A2 (ncols : nat) (rows : list (list cell)).

Definition shape (a : ndarray) : list nat :=
  match a with
  | A1 cells => [length cells]
  | A2 ncols rows => [length rows; ncols]
  end.

(** [np.zeros(n)] *)
Definition zeros (n : nat) : list float := replicate n 0%float.

(** *** Broadcasting *)

(** The common extent of two axes: equal extents, or one of them is 1. *)
Definition bdim (a b : nat) : option nat :=
  if decide (a = b) then Some a
  else if decide (a = 1%nat) then Some b
  else if decide (b = 1%nat) then Some a
  else None.

(** An axis of extent 1 is repeated along the common extent. *)
Definition stretch {A} (n : nat) (l : list A) : list A :=
  match l with
  | [x] => replicate n x
  | _ => l
  end.

(** *** True division ([from __future__ import division]) *)

Definition fdiv_vec (u v : list float) : result (list float) :=
  match bdim (length u) (length v) with
  | Some n => Ok (zip_with PrimFloat.div (stretch n u) (stretch n v))
  | None => Raise ValueError
  end.

Definition to_float (c : cell) : option float :=
  match c with
  | CInt z => Some (of_int z)
  | CFloat x => Some x
  | CVec _ => None
  end.

Definition cell_div (a b : cell) : result cell :=
  match a, b with
  | CVec u, CVec v => w ← fdiv_vec u v; Ok (CVec w)
  | CVec u, _ =>
      match to_float b with
      | Some y => Ok (CVec (map (fun x => PrimFloat.div x y) u))
      | None => Raise ValueError
      end
  | _, CVec v =>
      match to_float a with
      | Some x => Ok (CVec (map (fun y => PrimFloat.div x y) v))
      | None => Raise ValueError
      end
  | _, _ =>
      match to_float a, to_float b with
      | Some x, Some y => Ok (CFloat (PrimFloat.div x y))
      | _, _ => Raise ValueError
      end
  end.

Definition div_row (n : nat) (xs ys : list cell) : result (list cell) :=
  all_ok (zip_with cell_div (stretch n xs) (stretch n ys)).

Definition div_rows (n m : nat) (xs ys : list (list cell))
  : result (list (list cell)) :=
  all_ok (zip_with (div_row m) (stretch n xs) (stretch n ys)).

(** An array of rank one takes part in an operation with an array of rank
    two as a single row. *)
Definition as_rows (a : ndarray) : nat * list (list cell) :=
  match a with
  | A1 cells => (length cells, [cells])
  | A2 ncols rows => (ncols, rows)
  end.

(** [a / b] *)
Definition truediv (a b : ndarray) : result ndarray :=
  match a, b with
  | A1 xs, A1 ys =>
      match bdim (length xs) (length ys) with
      | Some n => l ← div_row n xs ys; Ok (A1 l)
      | None => Raise ValueError
      end
  | _, _ =>
      let '(ma, ra) := as_rows a in
      let '(mb, rb) := as_rows b in
      match bdim (length ra) (length rb), bdim ma mb with
      | Some n, Some m => l ← div_rows n m ra rb; Ok (A2 m l)
      | _, _ => Raise ValueError
      end
  end.

(** [a.reshape((-1, 1))]: the items of [a], one per row. *)
Definition reshape_column (a : ndarray) : ndarray :=
  match a with
  | A1 cells => A2 1 (map (fun c => [c]) cells)
  | A2 _ rows => A2 1 (map (fun c => [c]) (concat rows))
  end.

Definition is_scalar (c : cell) : bool :=
  match c with
  | CVec _ => false
  | _ => true
  end.

Definition vec_of (c : cell) : option (list float) :=
  match c with
  | CVec v => Some v
  | _ => None
  end.

(** A row of [float64] values. *)
Definition frow (l : list float) : list cell := map CFloat l.

(** [np.array(items)] on a Python list, as in the NumPy releases that run
    under the Python 2 interpreter the script asks for (its first line, and
    the [prop_cycler.next()] call of [plot_stats_total]): numbers give an
    array of rank one; vectors of one common length give an array of rank
    two, one row per vector, in the order of the list; vectors of different
    lengths give an array of rank one whose items are the vectors (an array
    of objects), and no error. A list that mixes numbers and vectors is
    refused; the script never builds one. *)
Definition array (items : list cell) : result ndarray :=
  if forallb is_scalar items then Ok (A1 items)
  else
    match mapM vec_of items with
    | Some (v :: vs) =>
        if forallb (fun w => bool_decide (length w = length v)) vs
        then Ok (A2 (length v) (map frow (v :: vs)))
        else Ok (A1 items)
    | _ => Raise ValueError
    end.

End Np.

Import Np.

(** ** The values held by [stats_data]

    [stats_data] is a [defaultdict(list)]: a key holds the Python list of
    the items appended to it and, from line 175 of the script on, the
    array made of that list; reading a key that is not there gives the
    empty list. *)

Inductive pyval : Type :=
| PList (items : list cell)
| PArr (a : ndarray).

Definition dd_get (k : string) (sd : gmap string pyval) : pyval :=
  default (PList []) (sd !! k).

(** [stats_data[k].append(c)] *)
Definition dd_append (k : string) (c : cell) (sd : gmap string pyval)
  : result (gmap string pyval) :=
  match dd_get k sd with
  | PList items => Ok (<[k := PList (items ++ [c])]> sd)
  | PArr _ => Raise AttributeError
  end.

(** ** [normalize_stats] *)

Definition normalize_stats (stats_data divisor : pyval) : result ndarray :=
  match stats_data, divisor with
  | PArr t, PArr d =>
      let d' := if decide (length (shape d) < length (shape t))%nat
                then reshape_column d else d in
      truediv t d'
  | _, _ => Raise AttributeError
  end.

(** ** The helper module [nevroutil]

    The script imports [digitize], [split_where],
    [get_stream_data_in_range] and [get_timestamp_data_in_range] from
    [nevroutil], a module of the repository whose source is not at hand;
    its functions are modelled from their contracts. *)

Module Nevroutil.

Inductive level : Type := LOW | MID | HIGH.

#[global] Instance level_eq_dec : EqDecision level.
Proof. solve_decision. Defined.

(** Modelled from the spec: [digitize] of [nevroutil] is missing. A value
    below the low threshold is LOW, a value above the high threshold is
    HIGH, any other value is MID; the output has the length of the input. *)
Definition digitize (values : list float) (low high : float) : list level :=
  map (fun v => if (v <? low)%float then LOW
                else if (high <? v)%float then HIGH else MID) values.

(** Modelled from the spec: the scan behind [split_where] of [nevroutil],
    which is missing. The indices, from [i] on, of the elements of
    [states] that differ from the element before them, [prev] being the
    element before the first. *)
Fixpoint boundaries_from {T} `{EqDecision T} (i : nat) (prev : T)
    (states : list T) : list nat :=
  match states with
  | [] => []
  | x :: rest =>
      if decide (x = prev) then boundaries_from (S i) x rest
      else i :: boundaries_from (S i) x rest
  end.

(** Modelled from the spec: [split_where] of [nevroutil] is missing. The
    indices [i], counted from the second element (index 1), at which
    [states[i] != states[i-1]]. *)
Definition split_where {T} `{EqDecision T} (states : list T) : list nat :=
  match states with
  | [] => []
  | x :: rest => boundaries_from 1 x rest
  end.

(** Modelled from the spec: the time range of the filters of [nevroutil],
    which are missing, the half-open interval [[t0, t1)]. *)
Definition in_range (t0 t1 t : float) : bool :=
  (t0 <=? t)%float && (t <? t1)%float.

(** Modelled from the spec: [get_timestamp_data_in_range] of [nevroutil] is
    missing. For each requested channel that has timestamps, those within
    [[t0, t1)]; a channel without data is absent from the result. *)
Definition get_timestamp_data_in_range (te : gmap Z (list float))
    (channels : list Z) (t0 t1 : float) : gmap Z (list float) :=
  foldr (fun ch acc =>
           match te !! ch with
           | Some ts => <[ch := List.filter (in_range t0 t1) ts]> acc
           | None => acc
           end) ∅ channels.

End Nevroutil.

Import Nevroutil.

(** ** Recordings, as the loader of [McsPy] returns them *)

(** A two-dimensional data set with its shape, (channels, samples). *)
Record dataset : Type := {
  ds_shape : nat * nat;
  ds_rows : list (list float)
}.

Record analog_stream : Type := {
  channel_data : dataset;
  sample_rate : float
}.

Record timestamp_stream : Type := {
  timestamp_entity : gmap Z (list float)
}.

Record recording : Type := {
  analog_streams : list analog_stream;
  timestamp_streams : list timestamp_stream
}.

Record raw_data : Type := {
  recordings : list recording
}.

(** [xs[0]] *)
Definition item0 {A} (xs : list A) : result A :=
  match xs with
  | x :: _ => Ok x
  | [] => Raise LookupError
  end.

(** Modelled from the spec: the sample times behind
    [get_stream_data_in_range] of [nevroutil], which is missing. The time
    of a sample is its index over the fixed sample rate. *)
Definition sample_times (stream : analog_stream) (n : nat) : list float :=
  map (fun k => (of_int (Z.of_nat k) / sample_rate stream)%float) (seq 0 n).

(** Modelled from the spec: the slice of one channel that
    [get_stream_data_in_range] of [nevroutil], which is missing, returns:
    the samples whose time is within [[t0, t1)]. *)
Definition samples_in_range (stream : analog_stream) (t0 t1 : float)
    (row : list float) : list float :=
  map snd (List.filter (fun p => in_range t0 t1 (fst p))
             (zip (sample_times stream (length row)) row)).

(** Modelled from the spec: [get_stream_data_in_range] of [nevroutil] is
    missing. For each requested channel that has a row of samples, the
    samples within [[t0, t1)]; a channel without data is absent from the
    result. *)
Definition get_stream_data_in_range (stream : analog_stream)
    (channels : list Z) (t0 t1 : float) : gmap Z (list float) :=
  foldr (fun ch acc =>
           if decide (0 ≤ ch)%Z
           then match ds_rows (channel_data stream) !! Z.to_nat ch with
                | Some row => <[ch := samples_in_range stream t0 t1 row]> acc
                | None => acc
                end
           else acc) ∅ channels.

(** ** Command line arguments of [plot_hdf5_stats.py] *)

Record Args : Type := {
  output : option string;
  stats : string;
  mode : string;
  t0 : float;
  t1 : float;
  channels : option string;
  exclude_channels : option string;
  normalize : bool;
  files : list string
}.

(** What a run does that can be seen from outside. *)
Inductive event : Type :=
| EvPrint (line : string)
| EvLoad (filename : string)
| EvPlot (stats : list string) (stats_data : gmap string pyval)
         (xticks labels : list string)
| EvSave (path : string)
| EvShow.

(** [s.split(sep)] for a separator of one character. *)
Fixpoint split (sep : Ascii.ascii) (s : string) : list string :=
  match s with
  | EmptyString => [EmptyString]
  | String c rest =>
      if decide (c = sep) then EmptyString :: split sep rest
      else match split sep rest with
           | w :: ws => String c w :: ws
           | [] => [String c EmptyString]
           end
  end.

(** [os.path.basename(p)]: what follows the last slash. *)
Definition basename (p : string) : string :=
  List.last (split "/"%char p) EmptyString.

(** A value in a condition: [None] and the empty string are false. *)
Definition truthy (o : option string) : option string :=
  match o with
  | Some EmptyString => None
  | _ => o
  end.

Definition stats_available : gset string :=
  list_to_set ["sample_count"; "spike_count"; "bit_count"; "mean"; "std"].

Definition exit_code {A} (r : result A) : Z :=
  match r with
  | Ok _ => 0
  | Raise _ => 1
  end.

(** ** The script *)

Section Script.

(** The range filters of [nevroutil] (any function of their arguments). *)
Variable timestamp_data_in_range :
  gmap Z (list float) → list Z → float → float → gmap Z (list float).
Variable stream_data_in_range :
  analog_stream → list Z → float → float → gmap Z (list float).

(** [np.mean] and [np.std] of a sequence of samples. *)
Variable np_mean np_std : list float → float.

(** [int(s)] on a string: the integer, or ValueError. *)
Variable py_int : string → result Z.

(** [McsPy.McsData.RawData(filename)] *)
Variable RawData : string → result raw_data.

(** The order in which a Python set is iterated. *)
Variable set_iter : gset Z → list Z.

(** The rendering of lines 103-125, through matplotlib. *)
Variable plot_stats_total :
  list string → gmap string pyval → list string → list string → result unit.

(** [enumerate(xs)] *)
Definition enumerate {A} (xs : list A) : list (nat * A) :=
  zip (seq 0 (length xs)) xs.

Definition sample_count (raw : raw_data) : result Z :=
  rec ← item0 (recordings raw);
  stream ← item0 (analog_streams rec);
  let n_samples := Z.of_nat (snd (ds_shape (channel_data stream))) in
  Ok n_samples.

Definition spike_count (raw : raw_data) (channels : list Z) (t0 t1 : float)
  : result (list float) :=
  rec ← item0 (recordings raw);
  ts ← item0 (timestamp_streams rec);
  let te := timestamp_entity ts in
  let timestamps := timestamp_data_in_range te channels t0 t1 in
  Ok (foldl (fun spike_counts '(i, ch) =>
               match timestamps !! ch with
               | Some events =>
                   <[i := of_int (Z.of_nat (length events))]> spike_counts
               | None => spike_counts
               end)
        (zeros (length channels)) (enumerate channels)).

(** The body of the loop of [bit_count] for the samples of one channel. *)
Definition count_bits (data : list float) : float :=
  let mean := np_mean data in
  let std := np_std data in
  let th_lo := (mean - 5 * std)%float in
  let th_hi := (mean + 5 * std)%float in
  let bits := digitize data th_lo th_hi in
  let idx := split_where bits in
  of_int (Z.of_nat (length idx)).

Definition bit_count (raw : raw_data) (channels : list Z) (t0 t1 : float)
  : result (list float) :=
  rec ← item0 (recordings raw);
  stream ← item0 (analog_streams rec);
  let stream_data := stream_data_in_range stream channels t0 t1 in
  Ok (foldl (fun bit_counts '(i, ch) =>
               match stream_data !! ch with
               | Some data => <[i := count_bits data]> bit_counts
               | None => bit_counts
               end)
        (zeros (length channels)) (enumerate channels)).

(** [set(map(int, s.split(',')))] *)
Definition parse_channels (s : string) : result (gset Z) :=
  l ← all_ok (map py_int (split "," s));
  Ok (list_to_set l).

(** Lines 138-149: the channel selection. *)
Definition select_channels (channels exclude_channels : option string)
  : result (gset Z) :=
  channels ← match truthy channels with
             | Some s => parse_channels s
             | None => Ok (list_to_set (map Z.of_nat (seq 0 60)))
             end;
  match truthy exclude_channels with
  | Some s =>
      exclude_channels ← parse_channels s;
      Ok (channels ∖ exclude_channels)
  | None => Ok channels
  end.

(** Lines 152-169: the body of the loop over the files. *)
Definition process_file (stats : list string) (normalize : bool)
    (channels : list Z) (t0 t1 : float) (filename : string)
    (stats_data : gmap string pyval)
  : list event * result (gmap string pyval) :=
  ([EvPrint ("Processing " ++ filename ++ "..."); EvLoad filename],
   raw ← RawData filename;
   rec ← item0 (recordings raw);
   stream ← item0 (analog_streams rec);
   timestamps ← item0 (timestamp_streams rec);
   stats_data ←
     (if bool_decide ("sample_count" ∈ stats) || normalize
      then sc ← sample_count raw;
           dd_append "sample_count" (CInt sc) stats_data
      else Ok stats_data);
   stats_data ←
     (if bool_decide ("spike_count" ∈ stats)
      then sc ← spike_count raw channels t0 t1;
           dd_append "spike_count" (CVec sc) stats_data
      else Ok stats_data);
   if bool_decide ("bit_count" ∈ stats)
   then bc ← bit_count raw channels t0 t1;
        dd_append "bit_count" (CVec bc) stats_data
   else Ok stats_data).

(** Lines 151-169: one file after the other; an exception ends the run. *)
Fixpoint process_files (stats : list string) (normalize : bool)
    (channels : list Z) (t0 t1 : float) (files : list string)
    (stats_data : gmap string pyval)
  : list event * result (gmap string pyval) :=
  match files with
  | [] => ([], Ok stats_data)
  | filename :: rest =>
      match process_file stats normalize channels t0 t1 filename stats_data with
      | (tr, Raise e) => (tr, Raise e)
      | (tr, Ok stats_data') =>
          let '(tr', r) :=
            process_files stats normalize channels t0 t1 rest stats_data' in
          ((tr ++ tr')%list, r)
      end
  end.

(** Lines 174-175: every list of [stats_data] becomes an array. *)
Definition as_array (v : pyval) : result pyval :=
  match v with
  | PList items => a ← array items; Ok (PArr a)
  | PArr a => Ok (PArr a)
  end.

Definition array_of (v : pyval) : option pyval :=
  match as_array v with
  | Ok a => Some a
  | Raise _ => None
  end.

Definition to_arrays (stats_data : gmap string pyval)
  : result (gmap string pyval) :=
  if bool_decide (map_Forall (fun _ v => is_Some (array_of v)) stats_data)
  then Ok (omap array_of stats_data)
  else Raise ValueError.

(** Lines 179-184: the normalisation loop. A key that is read and missing
    reads as the empty list, on which [normalize_stats] raises. *)
Definition is_rate (k : string) : bool :=
  bool_decide (k = "spike_count") || bool_decide (k = "bit_count").

Fixpoint normalize_loop (i : nat) (stats : list string)
    (stats_data : gmap string pyval) (labels : list string)
  : result (gmap string pyval * list string) :=
  match stats with
  | [] => Ok (stats_data, labels)
  | k :: rest =>
      if is_rate k then
        a ← normalize_stats (dd_get k stats_data)
              (dd_get "sample_count" stats_data);
        normalize_loop (S i) rest (<[k := PArr a]> stats_data)
          (alter (fun l => l ++ " (normalized)") i labels)
      else normalize_loop (S i) rest stats_data labels
  end.

Definition normalize_step (normalize : bool) (stats : list string)
    (stats_data : gmap string pyval)
  : result (gmap string pyval * list string) :=
  if normalize then normalize_loop 0 stats stats_data stats
  else Ok (stats_data, stats).

(** Lines 129-195. The result is the trace of the run and how it ends. *)
Definition main (args : Args) : list event * result unit :=
  let stats := split "," (stats args) in
  if bool_decide (list_to_set stats ∖ stats_available = (∅ : gset string))
  then
    match select_channels (channels args) (exclude_channels args) with
    | Raise e => ([], Raise e)
    | Ok channels =>
        let '(tr, r) :=
          process_files stats (normalize args) (set_iter channels)
            (t0 args) (t1 args) (files args) ∅ in
        match (stats_data ← r;
               stats_data ← to_arrays stats_data;
               normalize_step (normalize args) stats stats_data) with
        | Raise e => (tr, Raise e)
        | Ok (stats_data, labels) =>
            if decide (mode args = "total") then
              let xticks := map basename (files args) in
              let plot := EvPlot stats stats_data xticks labels in
              match plot_stats_total stats stats_data xticks labels with
              | Raise e => ((tr ++ [plot])%list, Raise e)
              | Ok _ =>
                  ((tr ++ [plot;
                           match truthy (output args) with
                           | Some path => EvSave path
                           | None => EvShow
                           end])%list, Ok tt)
              end
            else (tr, Raise NotImplementedError)
        end
    end
  else ([], Raise AssertionError).

End Script.

(** ** [plot_stats_total]: the lines it draws

    Lines 103-125 of the script. The drawing itself is matplotlib's; what
    is embedded is the data of each line: its label and its values. *)

Section PlotTotal.

(** [np.sum] of one row of a table, for [np.sum(y, axis=1)]. *)
Variable np_sum : list cell → cell.

(** [xs[i]] *)
Definition item {A} (xs : list A) (i : nat) : result A :=
  match xs !! i with
  | Some x => Ok x
  | None => Raise LookupError
  end.

(** Lines 114-117: a table of rank two is summed over its channels; a
    Python list has no [shape]. *)
Definition series (y : pyval) : result (list cell) :=
  match y with
  | PList _ => Raise AttributeError
  | PArr (A2 _ rows) => Ok (map np_sum rows)
  | PArr (A1 cells) => Ok cells
  end.

(** Lines 112-121: one line per statistic. *)
Fixpoint plot_lines (i : nat) (stats : list string)
    (stats_data : gmap string pyval) (labels : list string)
  : result (list (string * list cell)) :=
  match stats with
  | [] => Ok []
  | k :: rest =>
      y ← series (dd_get k stats_data);
      label ← item labels i;
      lines ← plot_lines (S i) rest stats_data labels;
      Ok ((label, y) :: lines)
  end.

Definition plot_stats_total (stats : list string)
    (stats_data : gmap string pyval) (xticks labels : list string)
  : result (list (string * list cell)) :=
  plot_lines 0 stats stats_data labels.

(** [plot_stats_total] as [main] calls it, for its effect only. *)
Definition render_total (stats : list string)
    (stats_data : gmap string pyval) (xticks labels : list string)
  : result unit :=
  _ ← plot_stats_total stats stats_data xticks labels; Ok tt.

End PlotTotal.

(** * [complexity_plot.py] *)

Module ComplexityPlot.

(** A complexity value: a number, or one number per channel. *)
Inductive centry : Type :=
| Scalar (x : float)
| Values (v : list float).

(** The pickled result of the complexity analysis, with its keys. *)
Record blob : Type := {
  method : string;
  complexity : list centry;
  files : list string;
  channels : list (list Z);
  nsamples : Z;
  compression : string
}.

Record Args : Type := {
  filename : string;
  output : option string;
  max : bool
}.

(** An argument of [str.format]. *)
Inductive parg : Type :=
| AInt (z : Z)
| AFloat (x : float)
| AStr (s : string)
| AChannels (chs : list Z)
| AEntry (c : centry).

(** What a run prints and draws. The axis limits of lines 67-73 are
    matplotlib's state and are left out. *)
Inductive event : Type :=
| Print (template : string) (args : list parg)
| Title (s : string)
| Plot (ys : list float)
| PlotEntries (cs : list centry)
| FillBetween (lo hi : list float)
| Scatter (i : nat) (v : list float)
| Xticks (n : nat) (labels : list string)
| Ylabel (s : string)
| Save (path : string)
| Show.

(** How a run can fail: with an exception of the loader or of an index, or
    with the TypeError of [len] on a number. *)
Inductive error : Type :=
| Base (e : exn)
| TypeError.

Inductive outcome : Type :=
| Done
| Failed (e : error).

(** The numbers of an entry, as [np.mean], [np.std] and [np.max] see it. *)
Definition values (c : centry) : list float :=
  match c with
  | Scalar x => [x]
  | Values v => v
  end.

(** [xs[1:]] and [xs[:-1]] *)
Definition but_first {A} (xs : list A) : list A := tail xs.
Definition but_last {A} (xs : list A) : list A := removelast xs.

(** Lines 24-27. *)
Definition channels_line (channels : list (list Z)) : result event :=
  if decide (but_first channels = but_last channels)
  then chs ← item0 channels; Ok (Print "  Channels: {}" [AChannels chs])
  else Ok (Print "  Channels: mixed" []).

Section Run.

Variable load : string → result blob.
Variable np_mean np_std np_max : list float → float.

(** Lines 33-39. *)
Definition entry_line (method : string) (i : nat) (c : centry) : event :=
  if decide (method = "per-channel")
  then Print "  {}: mean={} std={}"
         [AInt (Z.of_nat i); AFloat (np_mean (values c));
          AFloat (np_std (values c))]
  else Print "  {}: {}" [AInt (Z.of_nat i); AEntry c].

(** Lines 57-59: [len(v)] needs a sequence. *)
Fixpoint scatter (i : nat) (cs : list centry) : list event * outcome :=
  match cs with
  | [] => ([], Done)
  | Scalar _ :: _ => ([], Failed TypeError)
  | Values v :: rest =>
      let '(tr, r) := scatter (S i) rest in (Scatter i v :: tr, r)
  end.

(** [np.max] of an entry: an empty array has no maximum. *)
Definition max_of (c : centry) : result float :=
  match values c with
  | [] => Raise ValueError
  | l => Ok (np_max l)
  end.

(** Lines 46-53: the maxima, or the means with the band of one standard
    deviation around them. *)
Definition summary (max : bool) (cs : list centry) : result (list event) :=
  if max then
    ys ← all_ok (map max_of cs); Ok [Plot ys]
  else
    let mean := map (fun v => np_mean (values v)) cs in
    let std := map (fun v => np_std (values v)) cs in
    Ok [Plot mean;
        FillBetween (zip_with PrimFloat.sub mean std)
                    (zip_with PrimFloat.add mean std)].

(** Lines 43-62. *)
Definition draw (method : string) (max : bool) (cs : list centry)
  : list event * outcome :=
  if decide (method = "per-channel") then
    match summary max cs with
    | Raise e => ([], Failed (Base e))
    | Ok lines =>
        let '(tr, r) := scatter 0 cs in ((lines ++ tr)%list, r)
    end
  else ([PlotEntries cs], Done).

(** Lines 11-79. *)
Definition main (args : Args) : list event * outcome :=
  let loading := [Print "Loading {}..." [AStr (filename args)]] in
  match load (filename args) with
  | Raise e => (loading, Failed (Base e))
  | Ok data =>
      let n_results := length (complexity data) in
      let n_channels :=
        np_mean (map (fun chs => of_int (Z.of_nat (length chs)))
                   (channels data)) in
      let counts := [Print "  {} results, {:.2f} channels each"
                       [AInt (Z.of_nat n_results); AFloat n_channels]] in
      match channels_line (channels data) with
      | Raise e => ((loading ++ counts)%list, Failed (Base e))
      | Ok line =>
          let header :=
            [line;
             Print "  Method: {}" [AStr (method data)];
             Print "  #samples: {}" [AInt (nsamples data)];
             Print "  Compression: {}" [AStr (compression data)];
             Print "" []] in
          let entries := imap (entry_line (method data)) (complexity data) in
          let before :=
            (loading ++ counts ++ header ++ entries
               ++ [Title (basename (filename args))])%list in
          match draw (method data) (max args) (complexity data) with
          | (tr, Failed e) => ((before ++ tr)%list, Failed e)
          | (tr, Done) =>
              ((before ++ tr
                  ++ [Xticks (length (complexity data))
                        (map basename (files data));
                      Ylabel "Complexity";
                      match truthy (output args) with
                      | Some path => Save path
                      | None => Show
                      end])%list, Done)
          end
      end
  end.

End Run.

End ComplexityPlot.

(** ** Concrete collaborators and inputs, for running the model *)

Module Fixture.

(** Decimal integers with an optional minus sign. *)
Definition digit_of (c : Ascii.ascii) : option Z :=
  let n := nat_of_ascii c in
  if decide (48 ≤ n ≤ 57)%nat then Some (Z.of_nat (n - 48)) else None.

Fixpoint dec_digits (acc : Z) (s : string) : result Z :=
  match s with
  | EmptyString => Ok acc
  | String c rest =>
      match digit_of c with
      | Some d => dec_digits (10 * acc + d) rest
      | None => Raise ValueError
      end
  end.

Definition dec_int (s : string) : result Z :=
  match s with
  | EmptyString => Raise ValueError
  | String "-"%char (String c rest) =>
      z ← dec_digits 0 (String c rest); Ok (- z)
  | _ => dec_digits 0 s
  end.

(** Mean and population standard deviation, summing from the left. *)
Definition mean (l : list float) : float :=
  (foldl PrimFloat.add 0 l / of_int (Z.of_nat (length l)))%float.

Definition std (l : list float) : float :=
  let m := mean l in
  PrimFloat.sqrt (mean (map (fun x => ((x - m) * (x - m))%float) l)).

(** Three channels with the event times 1, 2, 3; none; and 5. *)
Definition events : gmap Z (list float) :=
  <[0 := [1; 2; 3]%float]> (<[1 := []]> (<[2 := [5]%float]> ∅)).

Definition stream : analog_stream :=
  {| channel_data :=
       {| ds_shape := (2%nat, 4%nat);
          ds_rows := [[0; 0; 0; 0]; [0; 9; 0; 9]]%float |};
     sample_rate := 1%float |}.

Definition rec : recording :=
  {| analog_streams := [stream];
     timestamp_streams := [{| timestamp_entity := events |}] |}.

Definition raw : raw_data := {| recordings := [rec] |}.

Definition loader (filename : string) : result raw_data :=
  if decide (filename = "missing.h5") then Raise IOError else Ok raw.

Definition render (stats : list string) (stats_data : gmap string pyval)
    (xticks labels : list string) : result unit := Ok tt.

Definition run (args : Args) : list event * result unit :=
  main get_timestamp_data_in_range get_stream_data_in_range mean std
    dec_int loader elements render args.

Definition per_channel_args : Args :=
  {| output := None; stats := "spike_count,bit_count";
     mode := "per-channel"; t0 := 0; t1 := infinity;
     channels := Some "0,1,2,2"; exclude_channels := None;
     normalize := true; files := ["d/a.h5"; "b.h5"] |}.

(** Two results of the complexity analysis, one value per file and one
    value per channel. *)
Definition blob_total : ComplexityPlot.blob :=
  {| ComplexityPlot.method := "total";
     ComplexityPlot.complexity :=
       [ComplexityPlot.Scalar 3; ComplexityPlot.Scalar 5]%float;
     ComplexityPlot.files := ["d/a.h5"; "d/b.h5"];
     ComplexityPlot.channels := [[0; 1]; [0; 1]];
     ComplexityPlot.nsamples := 1000;
     ComplexityPlot.compression := "gzip" |}.

Definition blob_per_channel : ComplexityPlot.blob :=
  {| ComplexityPlot.method := "per-channel";
     ComplexityPlot.complexity :=
       [ComplexityPlot.Values [3; 4]; ComplexityPlot.Values [5; 6]]%float;
     ComplexityPlot.files := ["d/a.h5"; "d/b.h5"];
     ComplexityPlot.channels := [[0; 1]; [0; 1]];
     ComplexityPlot.nsamples := 1000;
     ComplexityPlot.compression := "gzip" |}.

Definition load_blob (filename : string) : result ComplexityPlot.blob :=
  if decide (filename = "total.pkl") then Ok blob_total
  else if decide (filename = "channels.pkl") then Ok blob_per_channel
  else Raise IOError.

(** The largest value, from the left. *)
Definition maximum (l : list float) : float :=
  foldl (fun a x => if (a <? x)%float then x else a) neg_infinity l.

End Fixture.

(** * Predicates for the statements and the proofs *)

(** The body of the loops of [spike_count] and [bit_count], for the
    filtered data [m] and the statistic [h] of one channel. *)
Definition fill_body {A} (m : gmap Z A) (h : A → float)
    (acc : list float) '((i, ch) : nat * Z) : list float :=
  match m !! ch with
  | Some d => <[i := h d]> acc
  | None => acc
  end.

(** The rows of a table, each divided by the divisor of its file. *)
Definition quotients (rows : list (list float)) (dvs : list float)
  : list (list float) :=
  zip_with (fun r dv => map (fun x => (x / dv)%float) r) rows dvs.

(** What the loop over the files does for one file that loads. *)
Definition file_events (filename : string) : list event :=
  [EvPrint ("Processing " ++ filename ++ "..."); EvLoad filename].

Definition lists_only (sd : gmap string pyval) : Prop :=
  ∀ k v, sd !! k = Some v → ∃ l, v = PList l.

Definition items (k : string) (sd : gmap string pyval) : list cell :=
  match sd !! k with
  | Some (PList l) => l
  | _ => []
  end.

Definition app_if (flag : bool) (k : string) (c : cell)
    (sd : gmap string pyval) : gmap string pyval :=
  if flag then <[k := PList (items k sd ++ [c])]> sd else sd.

Definition ints (l : list cell) : Prop := ∃ zs, l = map CInt zs.

Definition vecs (m : nat) (l : list cell) : Prop :=
  ∃ vs, l = map CVec vs ∧ Forall (fun w => length w = m) vs.

(** What a key of [stats_data] holds after [n] files. *)
Definition key_state (flag : bool) (n : nat) (good : list cell → Prop)
    (o : option pyval) : Prop :=
  if flag && (0 <? n)%nat
  then ∃ l, o = Some (PList l) ∧ length l = n ∧ good l
  else o = None.

Definition is_table (m n : nat) (o : option pyval) : Prop :=
  ∃ rows, o = Some (PArr (A2 m (map frow rows)))
          ∧ length rows = n ∧ Forall (fun r => length r = m) rows.

Definition is_counts (n : nat) (o : option pyval) : Prop :=
  ∃ zs, o = Some (PArr (A1 (map CInt zs))) ∧ length zs = n.

Definition same_samples (r r' : result (gmap string pyval)) : Prop :=
  match r, r' with
  | Ok a, Ok b =>
      lists_only a ∧ lists_only b ∧ a !! "sample_count" = b !! "sample_count"
  | Raise e, Raise e' => e = e'
  | _, _ => False
  end.

(** The label of a statistic once the rates are normalised. *)
Definition label_of (k : string) : string :=
  if is_rate k then k ++ " (normalized)" else k.

(** [c] times [normalize_stats] by the divisor [d]. *)
Fixpoint normalize_times (d : pyval) (c : nat) (v : pyval) : result pyval :=
  match c with
  | O => Ok v
  | S c' => a ← normalize_stats v d; normalize_times d c' (PArr a)
  end.

(** How often a statistic is named. *)
Definition occurrences (k : string) (stats : list string) : nat :=
  length (List.filter (String.eqb k) stats).

(** An option that holds a list with an item [int] refuses. *)
Definition bad_list (py_int : string → result Z) (o : option string)
    (e : exn) : Prop :=
  ∃ s w, truthy o = Some s ∧ w ∈ split "," s ∧ py_int w = Raise e.

(** A file that [main] cannot read its streams from. *)
Definition load_error (RawData : string → result raw_data)
    (filename : string) (e : exn) : Prop :=
  RawData filename = Raise e
  ∨ ∃ raw, RawData filename = Ok raw ∧ e = LookupError
           ∧ (recordings raw = []
              ∨ ∃ rec recs, recordings raw = rec :: recs
                  ∧ (analog_streams rec = [] ∨ timestamp_streams rec = [])).

(** The statistics [main] collects data for. *)
Definition stats_computed : list string :=
  ["sample_count"; "spike_count"; "bit_count"].

Section Invariants.

Variable RawData : string → result raw_data.
Variable stats : list string.
Variable nz : bool.

Definition loads (filename : string) : Prop :=
  ∃ raw rec recs stream streams ts tss,
    RawData filename = Ok raw
    ∧ recordings raw = rec :: recs
    ∧ analog_streams rec = stream :: streams
    ∧ timestamp_streams rec = ts :: tss.

Definition want_samples : bool := bool_decide ("sample_count" ∈ stats) || nz.
Definition want_spikes : bool := bool_decide ("spike_count" ∈ stats).
Definition want_bits : bool := bool_decide ("bit_count" ∈ stats).

(** [stats_data] after [n] files, for [m] channels. *)
Record collected (m n : nat) (sd : gmap string pyval) : Prop := {
  col_lists : lists_only sd;
  col_keys : ∀ k, k ≠ "sample_count" → k ≠ "spike_count" →
                  k ≠ "bit_count" → sd !! k = None;
  col_samples : key_state want_samples n ints (sd !! "sample_count");
  col_spikes : key_state want_spikes n (vecs m) (sd !! "spike_count");
  col_bits : key_state want_bits n (vecs m) (sd !! "bit_count")
}.

(** [stats_data] once its lists are arrays. *)
Record aggregated (m n : nat) (sd : gmap string pyval) : Prop := {
  agg_samples : want_samples = true → is_counts n (sd !! "sample_count");
  agg_spikes : want_spikes = true → is_table m n (sd !! "spike_count");
  agg_bits : want_bits = true → is_table m n (sd !! "bit_count")
}.

Definition normalizable (m n : nat) (sd : gmap string pyval) : Prop :=
  is_counts n (sd !! "sample_count")
  ∧ ∀ k, k ∈ stats → is_rate k = true → is_table m n (sd !! k).

End Invariants.

(** * Properties *)

(** ** The run splitter *)

Lemma boundaries_from_elem {T} `{EqDecision T} (states : list T) :
  ∀ (i : nat) (prev : T) (j : nat),
  j ∈ boundaries_from i prev states
  ↔ ∃ k x y, j = (i + k)%nat ∧ states !! k = Some x
             ∧ (prev :: states) !! k = Some y ∧ x ≠ y.
Proof.
  induction states as [|x0 rest IH]; intros i prev j; simpl.
  - split; [by intros ?%elem_of_nil | by intros (k & x & y & _ & ? & _)].
  - assert (Hrest : j ∈ boundaries_from (S i) x0 rest
                    ↔ ∃ k x y, j = (i + S k)%nat ∧ rest !! k = Some x
                               ∧ (x0 :: rest) !! k = Some y ∧ x ≠ y).
    { rewrite IH. split; intros (k & x & y & -> & ?); exists k, x, y;
        (split; [lia | done]). }
    destruct (decide (x0 = prev)) as [->|Hne].
    + rewrite Hrest. split.
      * intros (k & x & y & -> & Hx & Hy & Hxy). by exists (S k), x, y.
      * intros ([|k] & x & y & -> & Hx & Hy & Hxy); simpl in *;
          [congruence | by exists k, x, y].
    + rewrite elem_of_cons, Hrest. split.
      * intros [->|(k & x & y & -> & Hx & Hy & Hxy)].
        -- exists 0%nat, x0, prev. split; [lia | done].
        -- by exists (S k), x, y.
      * intros ([|k] & x & y & -> & Hx & Hy & Hxy); simpl in *.
        -- left. lia.
        -- right. by exists k, x, y.
Qed.

(** The run splitter, as modelled, returns the positions [j >= 1] at which
    the state differs from the state before. *)
Lemma split_where_elem {T} `{EqDecision T} (states : list T) (j : nat) :
  j ∈ split_where states
  ↔ ∃ k x y, j = S k ∧ states !! S k = Some x ∧ states !! k = Some y ∧ x ≠ y.
Proof.
  destruct states as [|x0 rest]; simpl.
  - split; [by intros ?%elem_of_nil | by intros (k & x & y & _ & ? & _)].
  - rewrite boundaries_from_elem. split; intros (k & x & y & -> & ?);
      exists k, x, y; (split; [lia | done]).
Qed.

(** C9: a sequence of length 0 or 1 has no run boundary. *)
Theorem split_where_short {T} `{EqDecision T} (s : list T) :
  (length s ≤ 1)%nat → split_where s = [].
Proof.
  destruct s as [|x [|y s]]; simpl; intros Hlen; try reflexivity; lia.
Qed.

Lemma split_where_short_witness :
  (length [MID] ≤ 1)%nat ∧ split_where [MID] = [].
Proof. split; [simpl; lia | apply split_where_short; simpl; lia]. Defined.

(** ** The loops of [spike_count] and [bit_count] *)

Section FillLoop.

Context {A : Type} (m : gmap Z A) (h : A → float).

Lemma fill_loop (chs : list Z) : ∀ (k : nat) (acc : list float),
  (k + length chs ≤ length acc)%nat →
  let out := foldl (fill_body m h) acc (zip (seq k (length chs)) chs) in
  length out = length acc
  ∧ (∀ i, (i < k)%nat → out !! i = acc !! i)
  ∧ (∀ j ch, chs !! j = Some ch →
       out !! (k + j)%nat =
         match m !! ch with
         | Some d => Some (h d)
         | None => acc !! (k + j)%nat
         end).
Proof.
  induction chs as [|c cs IH]; intros k acc Hlen.
  - simpl. repeat split; auto. intros j ch Hj. rewrite lookup_nil in Hj.
    discriminate.
  - simpl in Hlen. cbv zeta.
    change (foldl (fill_body m h) acc (zip (seq k (length (c :: cs))) (c :: cs)))
      with (foldl (fill_body m h) ((fill_body m h) acc (k, c))
              (zip (seq (S k) (length cs)) cs)).
    assert (Hstep : ∀ i, i ≠ k → (fill_body m h) acc (k, c) !! i = acc !! i).
    { intros i Hi. simpl. destruct (m !! c); [|done].
      apply list_lookup_insert_ne. lia. }
    assert (Hacc' : length ((fill_body m h) acc (k, c)) = length acc).
    { simpl. destruct (m !! c); [apply length_insert | done]. }
    destruct (IH (S k) ((fill_body m h) acc (k, c))) as (HL & Hlow & Hat);
      [rewrite Hacc'; lia |].
    split; [congruence |]. split.
    + intros i Hi. rewrite Hlow by lia. apply Hstep. lia.
    + intros [|j] ch Hj; simpl in Hj.
      * injection Hj as ->. rewrite Nat.add_0_r, Hlow by lia.
        simpl. destruct (m !! ch); [|done].
        apply list_lookup_insert_eq. lia.
      * replace (k + S j)%nat with (S k + j)%nat by lia.
        rewrite (Hat j ch Hj). destruct (m !! ch); [done |].
        apply Hstep. lia.
Qed.

Lemma fill_zeros (chs : list Z) :
  let out := foldl (fill_body m h) (zeros (length chs))
               (zip (seq 0 (length chs)) chs) in
  length out = length chs
  ∧ ∀ i ch, chs !! i = Some ch →
      out !! i = Some (match m !! ch with
                       | Some d => h d
                       | None => 0%float
                       end).
Proof.
  destruct (fill_loop chs 0 (zeros (length chs))) as (HL & _ & Hat).
  { unfold zeros. rewrite length_replicate. lia. }
  simpl in *. split.
  - rewrite HL. apply length_replicate.
  - intros i ch Hi. rewrite (Hat i ch Hi). destruct (m !! ch); [done |].
    apply lookup_replicate_2. eapply lookup_lt_Some, Hi.
Qed.

End FillLoop.

(** ** The range filter on timestamps, as modelled *)

Lemma get_timestamp_data_in_range_lookup te chs t0 t1 ch :
  ch ∈ chs →
  get_timestamp_data_in_range te chs t0 t1 !! ch
  = List.filter (in_range t0 t1) <$> te !! ch.
Proof.
  unfold get_timestamp_data_in_range.
  induction chs as [|c cs IH]; intros Hin; [by apply elem_of_nil in Hin |].
  simpl. destruct (decide (ch = c)) as [->|Hne].
  - destruct (te !! c) as [ts|] eqn:E; simpl.
    + by rewrite lookup_insert_eq.
    + destruct (decide (c ∈ cs)) as [Hc|Hc].
      * rewrite (IH Hc). reflexivity.
      * clear IH Hin. induction cs as [|c' cs IH]; [done |]. simpl.
        apply not_elem_of_cons in Hc as [Hne Hc].
        destruct (te !! c'); [rewrite lookup_insert_ne by done |]; auto.
  - apply elem_of_cons in Hin as [?|Hin]; [done |].
    destruct (te !! c); [rewrite lookup_insert_ne by done |]; auto.
Qed.

(** ** The statistic functions *)

Lemma spike_count_ok filter raw chs t0 t1 rec recs ts tss :
  recordings raw = rec :: recs →
  timestamp_streams rec = ts :: tss →
  ∃ v, spike_count filter raw chs t0 t1 = Ok v
       ∧ length v = length chs
       ∧ ∀ i ch, chs !! i = Some ch →
           v !! i = Some (match filter (timestamp_entity ts) chs t0 t1 !! ch with
                          | Some events => of_int (Z.of_nat (length events))
                          | None => 0%float
                          end).
Proof.
  intros Hrec Hts. unfold spike_count. rewrite Hrec. simpl. rewrite Hts. simpl.
  eexists. split; [reflexivity |].
  apply (fill_zeros (filter (timestamp_entity ts) chs t0 t1)
           (fun events => of_int (Z.of_nat (length events)))).
Qed.

Lemma count_bits_empty mean std : count_bits mean std [] = 0%float.
Proof. reflexivity. Qed.

Lemma bit_count_ok filter mean std raw chs t0 t1 rec recs stream streams :
  recordings raw = rec :: recs →
  analog_streams rec = stream :: streams →
  ∃ v, bit_count filter mean std raw chs t0 t1 = Ok v
       ∧ length v = length chs
       ∧ ∀ i ch, chs !! i = Some ch →
           v !! i = Some (match filter stream chs t0 t1 !! ch with
                          | Some data => count_bits mean std data
                          | None => 0%float
                          end).
Proof.
  intros Hrec Hst. unfold bit_count. rewrite Hrec. simpl. rewrite Hst. simpl.
  eexists. split; [reflexivity |].
  apply (fill_zeros (filter stream chs t0 t1) (count_bits mean std)).
Qed.

(** C4: [spike_count] gives, for each channel of the set in the order of
    iteration, the number of events the range filter returns for it, and 0
    for a channel absent from the filter's result; with the filter as
    modelled this is the number of events with [t0 <= t < t1]; on the data
    {0: [1,2,3], 1: [], 2: [5]}, channels 0, 1, 2 and the range [0, inf)
    the result is [3, 0, 1]. *)
Theorem spike_count_spec filter raw chs t0 t1 rec recs ts tss :
  recordings raw = rec :: recs →
  timestamp_streams rec = ts :: tss →
  (∃ v, spike_count filter raw chs t0 t1 = Ok v
        ∧ length v = length chs
        ∧ ∀ i ch, chs !! i = Some ch →
            v !! i = Some (match filter (timestamp_entity ts) chs t0 t1 !! ch with
                           | Some events => of_int (Z.of_nat (length events))
                           | None => 0%float
                           end))
  ∧ (∃ v, spike_count get_timestamp_data_in_range raw chs t0 t1 = Ok v
          ∧ ∀ i ch, chs !! i = Some ch →
              v !! i = Some (match timestamp_entity ts !! ch with
                             | Some events =>
                                 of_int (Z.of_nat (length
                                   (List.filter (in_range t0 t1) events)))
                             | None => 0%float
                             end))
  ∧ spike_count get_timestamp_data_in_range
      {| recordings :=
           [{| analog_streams := [];
               timestamp_streams :=
                 [{| timestamp_entity :=
                       <[0 := [1; 2; 3]%float]>
                         (<[1 := []]> (<[2 := [5]%float]> ∅)) |}] |}] |}
      [0; 1; 2] 0%float infinity
    = Ok [3; 0; 1]%float.
Proof.
  intros Hrec Hts. split; [by eapply spike_count_ok |]. split.
  - destruct (spike_count_ok get_timestamp_data_in_range raw chs t0 t1
                _ _ _ _ Hrec Hts) as (v & Hv & _ & Hat).
    exists v. split; [done |]. intros i ch Hi. rewrite (Hat i ch Hi).
    rewrite get_timestamp_data_in_range_lookup
      by (eapply list_elem_of_lookup_2, Hi).
    by destruct (timestamp_entity ts !! ch).
  - vm_compute. reflexivity.
Qed.

Lemma spike_count_spec_witness :
  ∃ v, spike_count get_timestamp_data_in_range Fixture.raw [2; 0] 2%float 4%float
       = Ok v ∧ length v = 2%nat.
Proof.
  destruct (spike_count_spec get_timestamp_data_in_range Fixture.raw [2; 0]
              2%float 4%float Fixture.rec [] _ [] eq_refl eq_refl)
    as ((v & Hv & Hlen & _) & _).
  exists v. split; [exact Hv | exact Hlen].
Defined.

(** C3: [bit_count] gives one entry per channel of the set; a channel
    absent from the filtered stream data, or whose slice is empty, has the
    value 0; any other channel has the number of run boundaries of its
    slice digitized with the thresholds mean - 5 std and mean + 5 std. *)
Theorem bit_count_spec filter mean std raw chs t0 t1 rec recs stream streams :
  recordings raw = rec :: recs →
  analog_streams rec = stream :: streams →
  ∃ v, bit_count filter mean std raw chs t0 t1 = Ok v
       ∧ length v = length chs
       ∧ ∀ i ch, chs !! i = Some ch →
           (filter stream chs t0 t1 !! ch = None → v !! i = Some 0%float)
           ∧ (filter stream chs t0 t1 !! ch = Some [] → v !! i = Some 0%float)
           ∧ (∀ data, filter stream chs t0 t1 !! ch = Some data →
                v !! i = Some (of_int (Z.of_nat (length (split_where
                  (digitize data (mean data - 5 * std data)%float
                                 (mean data + 5 * std data)%float)))))).
Proof.
  intros Hrec Hst.
  destruct (bit_count_ok filter mean std raw chs t0 t1 _ _ _ _ Hrec Hst)
    as (v & Hv & Hlen & Hat).
  exists v. split; [done |]. split; [done |]. intros i ch Hi.
  rewrite (Hat i ch Hi). repeat split.
  - by intros ->.
  - by intros ->.
  - by intros data ->.
Qed.

Lemma bit_count_spec_witness :
  ∃ v, bit_count get_stream_data_in_range Fixture.mean Fixture.std
         Fixture.raw [1; 7; 0] 0%float infinity = Ok v
       ∧ length v = 3%nat.
Proof.
  destruct (bit_count_spec get_stream_data_in_range Fixture.mean Fixture.std
              Fixture.raw [1; 7; 0] 0%float infinity Fixture.rec []
              Fixture.stream [] eq_refl eq_refl) as (v & Hv & Hlen & _).
  exists v. split; [exact Hv | exact Hlen].
Defined.

(** ** The channel selection *)

Lemma default_channels_range (c : Z) :
  c ∈ map Z.of_nat (seq 0 60) ↔ 0 ≤ c < 60.
Proof.
  rewrite list_elem_of_fmap. split.
  - intros (n & -> & Hn). apply elem_of_seq in Hn. lia.
  - intros Hc. exists (Z.to_nat c). split; [lia |]. apply elem_of_seq. lia.
Qed.

(** C8: the active channel set is the set of the listed channels when the
    option is given, else the channels 0 to 59, less the excluded channels,
    which are removed from the set once it is formed; how often and in
    which order a channel is listed does not matter. *)
Theorem channel_selection py_int (ch ex : option string) (cs es : list Z) :
  match truthy ch with
  | Some s => all_ok (map py_int (split "," s)) = Ok cs
  | None => cs = map Z.of_nat (seq 0 60)
  end →
  match truthy ex with
  | Some s => all_ok (map py_int (split "," s)) = Ok es
  | None => es = []
  end →
  ∃ active : gset Z,
    select_channels py_int ch ex = Ok active
    ∧ active = list_to_set cs ∖ list_to_set es
    ∧ (∀ c, c ∈ active ↔ c ∈ cs ∧ c ∉ es)
    ∧ (truthy ch = None → ∀ c, c ∈ active ↔ 0 ≤ c < 60 ∧ c ∉ es)
    ∧ (∀ cs', (∀ c, c ∈ cs' ↔ c ∈ cs) →
         active = list_to_set cs' ∖ list_to_set es).
Proof.
  intros Hch Hex. exists (list_to_set cs ∖ list_to_set es).
  split; [| split; [done |]].
  - unfold select_channels, parse_channels.
    destruct (truthy ch) as [s|]; [rewrite Hch | subst cs]; simpl;
      (destruct (truthy ex) as [s'|]; [rewrite Hex | subst es]; simpl;
       f_equal; try reflexivity; symmetry; apply difference_empty_L).
  - split; [| split].
    + intros c. rewrite elem_of_difference, !elem_of_list_to_set. done.
    + intros Hnone c. rewrite Hnone in Hch. subst cs.
      rewrite elem_of_difference, !elem_of_list_to_set.
      by rewrite default_channels_range.
    + intros cs' Hsame. f_equal. apply set_eq. intros c.
      rewrite !elem_of_list_to_set. symmetry. apply Hsame.
Qed.

Lemma channel_selection_witness :
  ∃ active : gset Z,
    select_channels Fixture.dec_int (Some "0,1,2,2") (Some "2") = Ok active
    ∧ ∀ c, c ∈ active ↔ c ∈ [0; 1; 2; 2] ∧ c ∉ [2].
Proof.
  destruct (channel_selection Fixture.dec_int (Some "0,1,2,2") (Some "2")
              [0; 1; 2; 2] [2] eq_refl eq_refl) as (a & Ha & _ & Hin & _).
  exists a. split; [exact Ha | exact Hin].
Defined.

(** ** Division by the per-file divisors *)

Lemma all_ok_map_Ok {A B} (f : A → B) (l : list A) :
  all_ok (map (fun x => Ok (f x)) l) = Ok (map f l).
Proof. induction l as [|x l IH]; simpl; [done |]. by rewrite IH. Qed.

Lemma stretch_id {A} (n : nat) (l : list A) : length l = n → stretch n l = l.
Proof. destruct l as [|x [|y l]]; simpl; intros <-; reflexivity. Qed.

Lemma bdim_same n : bdim n n = Some n.
Proof. unfold bdim. by rewrite decide_True. Qed.

Lemma bdim_one_r n : bdim n 1 = Some n.
Proof.
  unfold bdim. destruct (decide (n = 1%nat)) as [->|Hn]; [done |].
  by rewrite decide_True.
Qed.

Lemma cell_div_scalar (x : float) (d : cell) (dv : float) :
  to_float d = Some dv → cell_div (CFloat x) d = Ok (CFloat (x / dv)%float).
Proof. destruct d; simpl; intros [= <-]; reflexivity. Qed.

Lemma div_row_scalar (r : list float) (d : cell) (dv : float) :
  to_float d = Some dv →
  div_row (length r) (frow r) [d]
  = Ok (frow (map (fun x => (x / dv)%float) r)).
Proof.
  intros Hd. unfold div_row, frow.
  rewrite stretch_id by apply length_map. simpl.
  rewrite zip_with_replicate_r_eq by apply length_map.
  rewrite <- list_fmap_compose, (map_map _ CFloat).
  rewrite <- (all_ok_map_Ok (fun x => CFloat (x / dv)%float)).
  f_equal. apply list_fmap_ext. intros _ x _. simpl.
  by apply cell_div_scalar.
Qed.

Lemma div_rows_columns m (rows : list (list float)) : ∀ ds dvs,
  Forall (fun r => length r = m) rows →
  Forall2 (fun d dv => to_float d = Some dv) ds dvs →
  length ds = length rows →
  all_ok (zip_with (div_row m) (map frow rows) (map (fun c => [c]) ds))
  = Ok (map frow (quotients rows dvs)).
Proof.
  induction rows as [|r rows IH]; intros ds dvs Hrows Hds Hlen.
  - destruct ds; [|done]. by destruct dvs.
  - destruct Hds as [|d dv ds dvs Hd Hds]; [done |].
    apply Forall_cons in Hrows as [Hr Hrows]. simpl in *.
    rewrite <- Hr, (div_row_scalar r d dv Hd). simpl.
    rewrite Hr, (IH ds dvs) by (auto; lia). reflexivity.
Qed.

Lemma normalize_stats_rows m (rows : list (list float)) ds dvs :
  Forall (fun r => length r = m) rows →
  Forall2 (fun d dv => to_float d = Some dv) ds dvs →
  length ds = length rows →
  normalize_stats (PArr (A2 m (map frow rows))) (PArr (A1 ds))
  = Ok (A2 m (map frow (quotients rows dvs))).
Proof.
  intros Hrows Hds Hlen. unfold normalize_stats. simpl.
  rewrite !length_map, Hlen, bdim_same, bdim_one_r.
  unfold div_rows. rewrite !stretch_id by (rewrite length_map; lia).
  by rewrite (div_rows_columns m rows ds dvs).
Qed.

Lemma quotients_lookup rows dvs i j r dv x :
  rows !! i = Some r → dvs !! i = Some dv → r !! j = Some x →
  quotients rows dvs !! i ≫= (.!! j) = Some (x / dv)%float.
Proof.
  intros Hr Hdv Hx. unfold quotients.
  rewrite lookup_zip_with, Hr, Hdv. simpl.
  by rewrite list_lookup_fmap, Hx.
Qed.

(** Dividing by a zero of either sign gives an infinity or a NaN. *)
Lemma zero_cases (d : float) :
  PrimFloat.is_zero d = true → ∃ s, Prim2SF d = S754_zero s.
Proof.
  unfold PrimFloat.is_zero. rewrite FloatAxioms.eqb_spec.
  change (Prim2SF PrimFloat.zero) with (S754_zero false).
  destruct (Prim2SF d) as [s|s| |s m e]; unfold SFeqb, SFcompare;
    try discriminate; [eauto | destruct s; discriminate..].
Qed.

Lemma div_by_zero_not_finite (x d : float) :
  PrimFloat.is_zero d = true → PrimFloat.is_finite (x / d) = false.
Proof.
  intros [s Hd]%zero_cases.
  unfold PrimFloat.is_finite, PrimFloat.is_nan, PrimFloat.is_infinity.
  rewrite !FloatAxioms.eqb_spec, FloatAxioms.abs_spec, FloatAxioms.div_spec, Hd.
  change (Prim2SF PrimFloat.infinity) with (S754_infinity false).
  destruct (Prim2SF x) as [sx|sx| |sx mx ex];
    try destruct sx; destruct s; reflexivity.
Qed.

(** C5: [normalize_stats] on a table of files by channels and one divisor
    per file returns a table and raises nothing, whatever the divisors;
    each entry is the quotient of the table's entry by the divisor of its
    file, and it is not finite when that divisor is zero. *)
Theorem normalize_stats_zero_divisor m (rows : list (list float))
    (ds : list cell) (dvs : list float) :
  Forall (fun r => length r = m) rows →
  Forall2 (fun d dv => to_float d = Some dv) ds dvs →
  length ds = length rows →
  ∃ out : list (list float),
    normalize_stats (PArr (A2 m (map frow rows))) (PArr (A1 ds))
    = Ok (A2 m (map frow out))
    ∧ length out = length rows
    ∧ ∀ i j r dv x,
        rows !! i = Some r → dvs !! i = Some dv → r !! j = Some x →
        out !! i ≫= (.!! j) = Some (x / dv)%float
        ∧ (PrimFloat.is_zero dv = true →
           PrimFloat.is_finite (x / dv) = false).
Proof.
  intros Hrows Hds Hlen. exists (quotients rows dvs).
  split; [by apply normalize_stats_rows |]. split.
  - unfold quotients. rewrite length_zip_with.
    apply Forall2_length in Hds. lia.
  - intros i j r dv x Hr Hdv Hx. split.
    + by eapply quotients_lookup.
    + apply div_by_zero_not_finite.
Qed.

Lemma normalize_stats_zero_divisor_witness :
  ∃ out : list (list float),
    normalize_stats (PArr (A2 2 (map frow [[10; 20]; [5; 0]]%float)))
      (PArr (A1 [CInt 10; CInt 0]))
    = Ok (A2 2 (map frow out))
    ∧ out !! 1%nat ≫= (.!! 0%nat) = Some (5 / 0)%float
    ∧ PrimFloat.is_finite (5 / 0) = false.
Proof.
  destruct (normalize_stats_zero_divisor 2 [[10; 20]; [5; 0]]%float
              [CInt 10; CInt 0] [10; 0]%float) as (out & Hout & _ & Hat).
  - repeat constructor.
  - repeat constructor.
  - reflexivity.
  - exists out. split; [exact Hout |].
    destruct (Hat 1%nat 0%nat [5; 0]%float 0%float 5%float
                eq_refl eq_refl eq_refl) as [Hq Hnf].
    split; [exact Hq | exact (Hnf eq_refl)].
Defined.

(** ** The normalisation loop *)

Lemma is_rate_cases k :
  is_rate k = true ↔ k = "spike_count" ∨ k = "bit_count".
Proof.
  unfold is_rate. rewrite orb_true_iff, !bool_decide_eq_true. done.
Qed.

Lemma normalize_loop_frame stats : ∀ i sd labels sd' labels',
  normalize_loop i stats sd labels = Ok (sd', labels') →
  ∀ k, is_rate k = false ∨ k ∉ stats → sd' !! k = sd !! k.
Proof.
  induction stats as [|k0 rest IH]; intros i sd labels sd' labels' Hrun k Hk.
  - by injection Hrun as -> _.
  - simpl in Hrun. destruct (is_rate k0) eqn:Hk0.
    + destruct (normalize_stats _ _) as [a|e]; [simpl in Hrun | done].
      rewrite (IH _ _ _ _ _ Hrun k).
      * apply lookup_insert_ne. intros ->.
        destruct Hk as [Hk|Hk]; [congruence | apply Hk; left].
      * destruct Hk as [Hk|Hk]; [by left | right].
        by apply not_elem_of_cons in Hk as [_ Hk].
    + apply (IH _ _ _ _ _ Hrun k).
      destruct Hk as [Hk|Hk]; [by left | right].
      by apply not_elem_of_cons in Hk as [_ Hk].
Qed.

Lemma normalize_loop_rate stats : ∀ i sd labels sd' labels',
  normalize_loop i stats sd labels = Ok (sd', labels') →
  NoDup stats →
  ∀ k, k ∈ stats → is_rate k = true →
  ∃ a, normalize_stats (dd_get k sd) (dd_get "sample_count" sd) = Ok a
       ∧ sd' !! k = Some (PArr a).
Proof.
  induction stats as [|k0 rest IH]; intros i sd labels sd' labels' Hrun Hnd k Hin Hk.
  - by apply elem_of_nil in Hin.
  - apply NoDup_cons in Hnd as [Hk0 Hnd]. simpl in Hrun.
    destruct (decide (k = k0)) as [->|Hne].
    + rewrite Hk in Hrun.
      destruct (normalize_stats _ _) as [a|e]; [simpl in Hrun | done].
      exists a. split; [done |].
      rewrite (normalize_loop_frame _ _ _ _ _ _ Hrun k0) by (by right).
      apply lookup_insert_eq.
    + apply elem_of_cons in Hin as [?|Hin]; [done |].
      destruct (is_rate k0) eqn:Hr0; [| by eapply IH].
      destruct (normalize_stats _ _) as [a0|e]; [simpl in Hrun | done].
      destruct (IH _ _ _ _ _ Hrun Hnd k Hin Hk) as (a & Ha & Hlook).
      exists a. split; [| done].
      unfold dd_get in *. rewrite !lookup_insert_ne in Ha; [done | | done].
      intros ->. by apply is_rate_cases in Hr0 as [?|?].
Qed.

(** C10: the normalisation step leaves every table other than those of
    [spike_count] and [bit_count] as it was, the table of [sample_count]
    among them; without the flag it changes nothing; with it, a selected
    [spike_count] or [bit_count] table becomes its quotient by the sample
    counts of the files. *)
Theorem normalization_frame (nz : bool) (stats : list string)
    (sd sd' : gmap string pyval) (labels' : list string) :
  normalize_step nz stats sd = Ok (sd', labels') →
  (∀ k, k ≠ "spike_count" → k ≠ "bit_count" → sd' !! k = sd !! k)
  ∧ sd' !! "sample_count" = sd !! "sample_count"
  ∧ (∀ k, k ∉ stats → sd' !! k = sd !! k)
  ∧ (nz = false → sd' = sd)
  ∧ (nz = true → NoDup stats →
     ∀ k, k ∈ stats → k = "spike_count" ∨ k = "bit_count" →
     ∃ a, normalize_stats (dd_get k sd) (dd_get "sample_count" sd) = Ok a
          ∧ sd' !! k = Some (PArr a)).
Proof.
  intros Hrun. unfold normalize_step in Hrun.
  assert (Hother : ∀ k, k ≠ "spike_count" → k ≠ "bit_count" →
                        sd' !! k = sd !! k).
  { intros k H1 H2. destruct nz; [| by injection Hrun as -> _].
    apply (normalize_loop_frame _ _ _ _ _ _ Hrun). left.
    destruct (is_rate k) eqn:E; [| done].
    by apply is_rate_cases in E as [?|?]. }
  split; [exact Hother |]. split; [by apply Hother |]. split; [| split].
  - intros k Hk. destruct nz; [| by injection Hrun as -> _].
    apply (normalize_loop_frame _ _ _ _ _ _ Hrun). by right.
  - intros ->. by injection Hrun as -> _.
  - intros -> Hnd k Hin Hk.
    apply (normalize_loop_rate _ _ _ _ _ _ Hrun Hnd k Hin).
    by apply is_rate_cases.
Qed.

Lemma normalization_frame_witness :
  let sd : gmap string pyval :=
    <["spike_count" := PArr (A2 2 [frow [10; 20]; frow [5; 5]]%float)]>
      (<["sample_count" := PArr (A1 [CInt 10; CInt 5])]> ∅) in
  let sd' : gmap string pyval :=
    <["spike_count" := PArr (A2 2 [frow [1; 2]; frow [1; 1]]%float)]> sd in
  normalize_step true ["sample_count"; "spike_count"] sd
  = Ok (sd', ["sample_count"; "spike_count (normalized)"])
  ∧ sd' !! "sample_count" = sd !! "sample_count".
Proof.
  intros sd sd'.
  assert (Hrun : normalize_step true ["sample_count"; "spike_count"] sd
                 = Ok (sd', ["sample_count"; "spike_count (normalized)"]))
    by (vm_compute; reflexivity).
  split; [exact Hrun |].
  exact (proj1 (proj2 (normalization_frame true _ sd sd' _ Hrun))).
Defined.

(** ** Aggregation: [np.array] on the vectors of the files *)

Lemma mapM_vec_of (vs : list (list float)) : mapM vec_of (map CVec vs) = Some vs.
Proof.
  apply mapM_Some. induction vs; constructor; auto.
Qed.

Lemma array_rows (v : list float) (vs : list (list float)) :
  Forall (fun w => length w = length v) vs →
  array (map CVec (v :: vs)) = Ok (A2 (length v) (map frow (v :: vs))).
Proof.
  intros Hlen. unfold array.
  change (forallb is_scalar (map CVec (v :: vs))) with false.
  cbv iota. rewrite mapM_vec_of.
  assert (E : forallb (fun w => bool_decide (length w = length v)) vs = true).
  { apply forallb_forall. intros w Hw. apply bool_decide_eq_true.
    rewrite Forall_forall in Hlen. apply Hlen. by apply list_elem_of_In. }
  by rewrite E.
Qed.

Lemma array_ragged (v : list float) (vs : list (list float)) :
  ¬ Forall (fun w => length w = length v) vs →
  array (map CVec (v :: vs)) = Ok (A1 (map CVec (v :: vs))).
Proof.
  intros Hlen. unfold array.
  change (forallb is_scalar (map CVec (v :: vs))) with false.
  cbv iota. rewrite mapM_vec_of.
  destruct (forallb _ vs) eqn:E; [| done].
  exfalso. apply Hlen. apply Forall_forall. intros w Hw.
  rewrite forallb_forall in E. eapply bool_decide_eq_true, E.
  by apply list_elem_of_In.
Qed.

Lemma array_ints (zs : list Z) : array (map CInt zs) = Ok (A1 (map CInt zs)).
Proof.
  unfold array.
  assert (E : forallb is_scalar (map CInt zs) = true).
  { apply forallb_forall. intros c [z [<- _]]%in_map_iff. done. }
  by rewrite E.
Qed.

(** ** The loop over the files *)

Lemma dd_append_lists k c sd :
  lists_only sd →
  dd_append k c sd = Ok (<[k := PList (items k sd ++ [c])]> sd).
Proof.
  intros Hl. unfold dd_append, dd_get, items.
  destruct (sd !! k) as [v|] eqn:E; simpl; [| done].
  by destruct (Hl k v E) as [l ->].
Qed.

Lemma app_if_lists flag k c sd : lists_only sd → lists_only (app_if flag k c sd).
Proof.
  intros Hl k' v. unfold app_if. destruct flag; [| apply Hl].
  destruct (decide (k = k')) as [->|Hne].
  - rewrite lookup_insert_eq. intros [= <-]. eauto.
  - rewrite lookup_insert_ne by done. apply Hl.
Qed.

Lemma app_if_other flag k c sd k' :
  k ≠ k' → app_if flag k c sd !! k' = sd !! k'.
Proof.
  intros Hne. unfold app_if. destruct flag; [| done].
  by apply lookup_insert_ne.
Qed.

Lemma app_if_same flag k c sd :
  app_if flag k c sd !! k
  = if flag then Some (PList (items k sd ++ [c])) else sd !! k.
Proof. unfold app_if. destruct flag; [apply lookup_insert_eq | done]. Qed.

Section Files.

Variable tsf : gmap Z (list float) → list Z → float → float → gmap Z (list float).
Variable sf : analog_stream → list Z → float → float → gmap Z (list float).
Variable mean std : list float → float.
Variable RawData : string → result raw_data.
Variable stats : list string.
Variable nz : bool.

Lemma process_file_loads chs t0 t1 f sd raw rec recs stream streams ts tss :
  RawData f = Ok raw →
  recordings raw = rec :: recs →
  analog_streams rec = stream :: streams →
  timestamp_streams rec = ts :: tss →
  lists_only sd →
  ∃ v2 v3,
    length v2 = length chs ∧ length v3 = length chs
    ∧ process_file tsf sf mean std RawData stats nz chs t0 t1 f sd
      = (file_events f,
         Ok (app_if (want_bits stats) "bit_count" (CVec v3)
               (app_if (want_spikes stats) "spike_count" (CVec v2)
                  (app_if (want_samples stats nz) "sample_count"
                     (CInt (Z.of_nat (snd (ds_shape (channel_data stream)))))
                     sd)))).
Proof.
  intros Hraw Hrec Hst Hts Hl.
  destruct (spike_count_ok tsf raw chs t0 t1 _ _ _ _ Hrec Hts)
    as (v2 & Hv2 & Hl2 & _).
  destruct (bit_count_ok sf mean std raw chs t0 t1 _ _ _ _ Hrec Hst)
    as (v3 & Hv3 & Hl3 & _).
  exists v2, v3. split; [done |]. split; [done |].
  unfold process_file, file_events. f_equal.
  rewrite Hraw. simpl. rewrite Hrec. simpl. rewrite Hst, Hts. simpl.
  unfold sample_count. rewrite Hrec. simpl. rewrite Hst. simpl.
  rewrite Hv2, Hv3.
  fold (want_samples stats nz) (want_spikes stats) (want_bits stats).
  set (sd1 := app_if (want_samples stats nz) "sample_count" _ sd).
  assert (Hl1 : lists_only sd1) by by apply app_if_lists.
  set (sd2 := app_if (want_spikes stats) "spike_count" (CVec v2) sd1).
  assert (Hl2' : lists_only sd2) by by apply app_if_lists.
  assert (E1 : (if (want_samples stats nz)
                then dd_append "sample_count"
                       (CInt (Z.of_nat (snd (ds_shape (channel_data stream))))) sd
                else Ok sd) = Ok sd1).
  { unfold sd1, app_if. destruct (want_samples stats nz); [| done].
    by apply dd_append_lists. }
  assert (E2 : (if (want_spikes stats) then dd_append "spike_count" (CVec v2) sd1
                else Ok sd1) = Ok sd2).
  { unfold sd2, app_if. destruct (want_spikes stats); [| done].
    by apply dd_append_lists. }
  assert (E3 : (if (want_bits stats) then dd_append "bit_count" (CVec v3) sd2
                else Ok sd2)
               = Ok (app_if (want_bits stats) "bit_count" (CVec v3) sd2)).
  { unfold app_if. destruct (want_bits stats); [| done]. by apply dd_append_lists. }
  rewrite E1. simpl. rewrite E2. simpl. by rewrite E3.
Qed.

Lemma key_state_step flag n (good : list cell → Prop) k c sd :
  good [] →
  (∀ l, good l → good (l ++ [c])%list) →
  key_state flag n good (sd !! k) →
  key_state flag (S n) good (app_if flag k c sd !! k).
Proof.
  intros Hnil Happ Hk. rewrite app_if_same. unfold key_state in *.
  destruct flag; simpl in *; [| done].
  unfold items. destruct n as [|n]; simpl in Hk.
  - rewrite Hk. exists [c]. split; [done |]. split; [done |].
    apply (Happ [] Hnil).
  - destruct Hk as (l & -> & Hlen & Hgood). exists (l ++ [c])%list.
    split; [done |]. split; [| by apply Happ].
    rewrite length_app. simpl. lia.
Qed.

Lemma ints_nil : ints [].
Proof. by exists []. Qed.

Lemma vecs_nil m : vecs m [].
Proof. exists []. by split. Qed.

Lemma ints_snoc z l : ints l → ints (l ++ [CInt z])%list.
Proof.
  intros [zs ->]. exists (zs ++ [z])%list. by rewrite map_app.
Qed.

Lemma vecs_snoc m v l : length v = m → vecs m l → vecs m (l ++ [CVec v])%list.
Proof.
  intros Hv (vs & -> & Hall). exists (vs ++ [v])%list. split.
  - by rewrite map_app.
  - apply Forall_app. split; [done |]. by constructor.
Qed.

Lemma collected_empty m : collected stats nz m 0 ∅.
Proof.
  split; try (intros; apply lookup_empty).
  - intros k v. by rewrite lookup_empty.
  - unfold key_state. rewrite andb_false_r. apply lookup_empty.
  - unfold key_state. rewrite andb_false_r. apply lookup_empty.
  - unfold key_state. rewrite andb_false_r. apply lookup_empty.
Qed.

Lemma process_file_collected chs t0 t1 f sd n :
  loads RawData f →
  collected stats nz (length chs) n sd →
  ∃ sd', process_file tsf sf mean std RawData stats nz chs t0 t1 f sd
         = (file_events f, Ok sd')
         ∧ collected stats nz (length chs) (S n) sd'.
Proof.
  intros (raw & rec & recs & stream & streams & ts & tss & Hraw & Hrec & Hst & Hts)
         [Hl Hkeys Hsc Hsp Hbc].
  destruct (process_file_loads chs t0 t1 f sd _ _ _ _ _ _ _ Hraw Hrec Hst Hts Hl)
    as (v2 & v3 & Hv2 & Hv3 & Hrun).
  eexists. split; [exact Hrun |]. split.
  - by do 3 apply app_if_lists.
  - intros k H1 H2 H3. rewrite !app_if_other by done. by apply Hkeys.
  - rewrite !app_if_other by done.
    apply key_state_step; [apply ints_nil | apply ints_snoc | done].
  - rewrite app_if_other by done.
    apply key_state_step;
      [apply vecs_nil | intros l; by apply vecs_snoc |].
    by rewrite app_if_other.
  - apply key_state_step;
      [apply vecs_nil | intros l; by apply vecs_snoc |].
    by rewrite !app_if_other.
Qed.

Lemma process_files_cons chs t0 t1 f files sd :
  process_files tsf sf mean std RawData stats nz chs t0 t1 (f :: files) sd
  = match process_file tsf sf mean std RawData stats nz chs t0 t1 f sd with
    | (tr, Raise e) => (tr, Raise e)
    | (tr, Ok sd') =>
        let '(tr', r) :=
          process_files tsf sf mean std RawData stats nz chs t0 t1 files sd' in
        ((tr ++ tr')%list, r)
    end.
Proof. reflexivity. Qed.

Lemma process_files_collected chs t0 t1 files : ∀ sd n,
  Forall (loads RawData) files →
  collected stats nz (length chs) n sd →
  ∃ sd', process_files tsf sf mean std RawData stats nz chs t0 t1 files sd
         = (concat (map file_events files), Ok sd')
         ∧ collected stats nz (length chs) (n + length files) sd'.
Proof.
  induction files as [|f files IH]; intros sd n Hloads Hcol.
  - exists sd. split; [done |]. by rewrite Nat.add_0_r.
  - apply Forall_cons in Hloads as [Hf Hloads].
    destruct (process_file_collected chs t0 t1 f sd n Hf Hcol)
      as (sd1 & Hrun1 & Hcol1).
    destruct (IH sd1 (S n) Hloads Hcol1) as (sd' & Hrun & Hcol').
    exists sd'. split.
    + rewrite process_files_cons, Hrun1, Hrun. reflexivity.
    + simpl. by replace (n + S (length files))%nat
               with (S n + length files)%nat by lia.
Qed.

(** *** The arrays made of the collected lists *)

Lemma key_state_Some flag n good o v :
  key_state flag n good o → o = Some v →
  ∃ l, v = PList l ∧ length l = n ∧ good l ∧ (0 < n)%nat.
Proof.
  unfold key_state. intros Hk ->.
  destruct (flag && (0 <? n)%nat) eqn:E; [| done].
  apply andb_true_iff in E as [_ Hn%Nat.ltb_lt].
  destruct Hk as (l & [= ->] & Hlen & Hgood). eauto.
Qed.

Lemma key_state_true n good o :
  key_state true n good o → (0 < n)%nat →
  ∃ l, o = Some (PList l) ∧ length l = n ∧ good l.
Proof.
  unfold key_state. intros Hk Hn%Nat.ltb_lt. by rewrite Hn in Hk.
Qed.

Lemma array_of_ints l : ints l → array_of (PList l) = Some (PArr (A1 l)).
Proof. intros [zs ->]. unfold array_of. simpl. by rewrite array_ints. Qed.

Lemma array_of_vecs m l :
  vecs m l → (0 < length l)%nat →
  ∃ rows, array_of (PList l) = Some (PArr (A2 m (map frow rows)))
          ∧ length rows = length l ∧ Forall (fun r => length r = m) rows.
Proof.
  intros (vs & -> & Hall) Hlen. destruct vs as [|v vs]; [simpl in Hlen; lia |].
  exists (v :: vs). unfold array_of, as_array.
  apply Forall_cons in Hall as Hall'. destruct Hall' as [Hv Hvs].
  rewrite array_rows.
  - simpl. rewrite Hv. split; [done |]. split; [| done].
    simpl. by rewrite length_map.
  - eapply Forall_impl; [exact Hvs |]. simpl. intros w ->. done.
Qed.

Lemma to_arrays_collected m n sd :
  collected stats nz m n sd → (0 < n)%nat →
  ∃ sd1, to_arrays sd = Ok sd1 ∧ aggregated stats nz m n sd1.
Proof.
  intros [Hl Hkeys Hsc Hsp Hbc] Hn. exists (omap array_of sd). split.
  - unfold to_arrays. rewrite bool_decide_eq_true_2; [done |].
    intros k v Hkv.
    destruct (decide (k = "sample_count")) as [->|H1].
    { destruct (key_state_Some _ _ _ _ _ Hsc Hkv) as (l & -> & _ & Hg & _).
      by rewrite array_of_ints. }
    destruct (decide (k = "spike_count")) as [->|H2].
    { destruct (key_state_Some _ _ _ _ _ Hsp Hkv) as (l & -> & Hlen & Hg & _).
      destruct (array_of_vecs m l Hg) as (rows & -> & _); [lia | done]. }
    destruct (decide (k = "bit_count")) as [->|H3].
    { destruct (key_state_Some _ _ _ _ _ Hbc Hkv) as (l & -> & Hlen & Hg & _).
      destruct (array_of_vecs m l Hg) as (rows & -> & _); [lia | done]. }
    rewrite Hkeys in Hkv by done. discriminate.
  - split; intros Hflag.
    + rewrite Hflag in Hsc.
      destruct (key_state_true _ _ _ Hsc Hn) as (l & Hlook & Hlen & Hg).
      rewrite lookup_omap, Hlook. simpl. rewrite (array_of_ints l Hg).
      destruct Hg as [zs ->]. exists zs. split; [done |].
      by rewrite length_map in Hlen.
    + rewrite Hflag in Hsp.
      destruct (key_state_true _ _ _ Hsp Hn) as (l & Hlook & Hlen & Hg).
      rewrite lookup_omap, Hlook. simpl.
      destruct (array_of_vecs m l Hg) as (rows & -> & Hr & Hall); [lia |].
      exists rows. split; [done |]. split; [lia | done].
    + rewrite Hflag in Hbc.
      destruct (key_state_true _ _ _ Hbc Hn) as (l & Hlook & Hlen & Hg).
      rewrite lookup_omap, Hlook. simpl.
      destruct (array_of_vecs m l Hg) as (rows & -> & Hr & Hall); [lia |].
      exists rows. split; [done |]. split; [lia | done].
Qed.

(** *** The normalisation of the aggregated tables *)

Lemma aggregated_normalizable m n sd :
  aggregated stats nz m n sd → want_samples stats nz = true →
  normalizable stats m n sd.
Proof.
  intros [Hsc Hsp Hbc] Hflag. split; [by apply Hsc |].
  intros k Hin [->| ->]%is_rate_cases.
  - apply Hsp. by apply bool_decide_eq_true.
  - apply Hbc. by apply bool_decide_eq_true.
Qed.

Lemma to_float_ints (zs : list Z) :
  Forall2 (fun d dv => to_float d = Some dv) (map CInt zs) (map of_int zs).
Proof. induction zs; constructor; auto. Qed.

Lemma quotients_shape m rows dvs :
  Forall (fun r : list float => length r = m) rows →
  length dvs = length rows →
  length (quotients rows dvs) = length rows
  ∧ Forall (fun r => length r = m) (quotients rows dvs).
Proof.
  intros Hrows Hlen. unfold quotients. split.
  - rewrite length_zip_with. lia.
  - clear Hlen. revert dvs.
    induction Hrows as [|r rows Hr Hrows IH]; intros [|dv dvs]; simpl;
      constructor; auto.
    by rewrite length_map.
Qed.

Lemma normalize_loop_ok m n ks : ∀ i sd labels,
  (∀ k, k ∈ ks → k ∈ stats) →
  normalizable stats m n sd →
  ∃ out, normalize_loop i ks sd labels = Ok out.
Proof.
  induction ks as [|k0 ks IH]; intros i sd labels Hsub [Hsc Htab]; simpl.
  - eauto.
  - assert (Hsub' : ∀ k, k ∈ ks → k ∈ stats)
      by (intros k Hk; apply Hsub; by right).
    destruct (is_rate k0) eqn:Hk0; [| by apply IH].
    destruct Hsc as (zs & Hzs & Hlen).
    destruct (Htab k0) as (rows & Hrows & Hn & Hall); [apply Hsub; by left | done |].
    unfold dd_get. rewrite Hrows, Hzs. simpl default.
    rewrite (normalize_stats_rows m rows _ (map of_int zs) Hall (to_float_ints zs))
      by (rewrite length_map; lia).
    simpl. apply IH; [done |].
    destruct (quotients_shape m rows (map of_int zs) Hall) as [Hq1 Hq2];
      [rewrite length_map; lia |].
    split.
    + exists zs. rewrite lookup_insert_ne; [done |].
      intros ->. by apply is_rate_cases in Hk0 as [?|?].
    + intros k Hk Hrate. destruct (decide (k0 = k)) as [->|Hne].
      * rewrite lookup_insert_eq. eexists. split; [done |]. split; [lia | done].
      * rewrite lookup_insert_ne by done. by apply Htab.
Qed.

Lemma normalize_step_ok m n sd :
  aggregated stats nz m n sd →
  ∃ out, normalize_step nz stats sd = Ok out.
Proof.
  intros Hagg. unfold normalize_step.
  assert (Hnz : nz = true ∨ nz = false) by (destruct nz; auto).
  destruct Hnz as [Hnz|Hnz]; rewrite Hnz; [| eauto].
  apply (normalize_loop_ok m n); [done |].
  apply aggregated_normalizable; [done |].
  unfold want_samples. rewrite Hnz. apply orb_true_r.
Qed.

(** From the empty [stats_data] to the end of the normalisation. *)
Lemma statistics_ok chs t0 t1 files :
  Forall (loads RawData) files → files ≠ [] →
  ∃ sd sd1 out,
    process_files tsf sf mean std RawData stats nz chs t0 t1 files ∅
    = (concat (map file_events files), Ok sd)
    ∧ to_arrays sd = Ok sd1
    ∧ aggregated stats nz (length chs) (length files) sd1
    ∧ normalize_step nz stats sd1 = Ok out.
Proof.
  intros Hloads Hne.
  destruct (process_files_collected chs t0 t1 files ∅ 0 Hloads
              (collected_empty _)) as (sd & Hrun & Hcol).
  simpl in Hcol.
  destruct (to_arrays_collected _ _ sd Hcol) as (sd1 & Harr & Hagg).
  { destruct files; [done | simpl; lia]. }
  destruct (normalize_step_ok _ _ sd1 Hagg) as (out & Hout).
  by exists sd, sd1, out.
Qed.

(** *** The sample counts do not depend on the channels *)

Lemma process_file_independent chs chs' t0 t0' t1 t1' f sd sd' :
  lists_only sd → lists_only sd' →
  sd !! "sample_count" = sd' !! "sample_count" →
  (process_file tsf sf mean std RawData stats nz chs t0 t1 f sd).1
  = (process_file tsf sf mean std RawData stats nz chs' t0' t1' f sd').1
  ∧ same_samples
      (process_file tsf sf mean std RawData stats nz chs t0 t1 f sd).2
      (process_file tsf sf mean std RawData stats nz chs' t0' t1' f sd').2.
Proof.
  intros Hl Hl' Hsame. split; [done |].
  destruct (RawData f) as [raw|e] eqn:Hraw;
    [| unfold process_file; rewrite Hraw; simpl; done].
  destruct (recordings raw) as [|rec recs] eqn:Hrec;
    [unfold process_file; rewrite Hraw; simpl; rewrite Hrec; done |].
  destruct (analog_streams rec) as [|stream streams] eqn:Hst;
    [unfold process_file; rewrite Hraw; simpl; rewrite Hrec; simpl;
     rewrite Hst; done |].
  destruct (timestamp_streams rec) as [|ts tss] eqn:Hts;
    [unfold process_file; rewrite Hraw; simpl; rewrite Hrec; simpl;
     rewrite Hst, Hts; done |].
  pose proof (process_file_loads chs t0 t1 f sd _ _ _ _ _ _ _
                Hraw Hrec Hst Hts Hl) as (v2 & v3 & _ & _ & E).
  pose proof (process_file_loads chs' t0' t1' f sd' _ _ _ _ _ _ _
                Hraw Hrec Hst Hts Hl') as (v2' & v3' & _ & _ & E').
  rewrite E, E'.
  cbn [snd same_samples].
  split; [do 3 apply app_if_lists; exact Hl |].
  split; [do 3 apply app_if_lists; exact Hl' |].
  do 2 (rewrite (app_if_other _ "bit_count") by done;
        rewrite (app_if_other _ "spike_count") by done).
  rewrite !app_if_same. unfold items. by rewrite Hsame.
Qed.

Lemma process_files_independent chs chs' t0 t0' t1 t1' files : ∀ sd sd',
  lists_only sd → lists_only sd' →
  sd !! "sample_count" = sd' !! "sample_count" →
  (process_files tsf sf mean std RawData stats nz chs t0 t1 files sd).1
  = (process_files tsf sf mean std RawData stats nz chs' t0' t1' files sd').1
  ∧ same_samples
      (process_files tsf sf mean std RawData stats nz chs t0 t1 files sd).2
      (process_files tsf sf mean std RawData stats nz chs' t0' t1' files sd').2.
Proof.
  induction files as [|f files IH]; intros sd sd' Hl Hl' Hsame; [done |].
  rewrite !process_files_cons.
  destruct (process_file_independent chs chs' t0 t0' t1 t1' f sd sd'
              Hl Hl' Hsame) as [Htr Hres].
  destruct (process_file _ _ _ _ _ _ _ chs _ _ f sd) as [tr [a|e]];
    destruct (process_file _ _ _ _ _ _ _ chs' _ _ f sd') as [tr' [b|e']];
    simpl in *; try done; subst tr'.
  destruct Hres as (Ha & Hb & Hab).
  destruct (IH a b Ha Hb Hab) as [Htr' Hres'].
  destruct (process_files _ _ _ _ _ _ _ chs _ _ files a) as [tr1 r1].
  destruct (process_files _ _ _ _ _ _ _ chs' _ _ files b) as [tr2 r2].
  simpl in *. by subst tr2.
Qed.

End Files.

(** ** The claims on [normalize_stats], the aggregation and [main] *)

(** C1 (as the code has it): the table [[10,20],[5,5]] divided by the
    per-file divisors [10,5] is [[1,2],[1,1]]. *)
Theorem normalize_stats_example :
  normalize_stats
    (PArr (A2 2 [frow [10; 20]; frow [5; 5]]%float))
    (PArr (A1 [CInt 10; CInt 5]))
  = Ok (A2 2 [frow [1; 2]; frow [1; 1]]%float).
Proof. vm_compute. reflexivity. Qed.

(** C1 (as stated) fails: the result is not the table [[1,4],[1,1]]. *)
Lemma normalize_stats_not_1411 :
  normalize_stats
    (PArr (A2 2 [frow [10; 20]; frow [5; 5]]%float))
    (PArr (A1 [CInt 10; CInt 5]))
  ≠ Ok (A2 2 [frow [1; 4]; frow [1; 1]]%float).
Proof.
  intros H. vm_compute in H.
  assert (E : (2 = 4)%float) by congruence.
  apply (f_equal Prim2SF) in E. vm_compute in E. discriminate E.
Qed.




(** C7: [sample_count] is the number of samples of the first analog
    stream of the recording, the second extent of its data; it takes no
    channel set and no time range, and the sample counts that the loop
    over the files collects are the same whatever the channel set and the
    time range are. *)
Theorem sample_count_spec raw rec recs stream streams :
  recordings raw = rec :: recs →
  analog_streams rec = stream :: streams →
  sample_count raw = Ok (Z.of_nat (snd (ds_shape (channel_data stream))))
  ∧ ∀ tsf sf mean std RawData stats nz files chs chs' t0 t0' t1 t1',
      let r := process_files tsf sf mean std RawData stats nz
                 chs t0 t1 files ∅ in
      let r' := process_files tsf sf mean std RawData stats nz
                  chs' t0' t1' files ∅ in
      r.1 = r'.1
      ∧ match r.2, r'.2 with
        | Ok sd, Ok sd' => sd !! "sample_count" = sd' !! "sample_count"
        | Raise e, Raise e' => e = e'
        | _, _ => False
        end.
Proof.
  intros Hrec Hst. split.
  - unfold sample_count. rewrite Hrec. simpl. by rewrite Hst.
  - intros tsf sf mean std RawData stats nz files chs chs' t0 t0' t1 t1' r r'.
    assert (Hempty : lists_only ∅) by (intros k v; by rewrite lookup_empty).
    destruct (process_files_independent tsf sf mean std RawData stats nz
                chs chs' t0 t0' t1 t1' files ∅ ∅ Hempty Hempty eq_refl)
      as [Htr Hres].
    split; [exact Htr |]. fold r r' in Hres. unfold same_samples in Hres.
    destruct r.2, r'.2; try done. by destruct Hres as (_ & _ & ?).
Qed.

Lemma sample_count_spec_witness :
  sample_count Fixture.raw = Ok 4.
Proof.
  exact (proj1 (sample_count_spec Fixture.raw Fixture.rec [] Fixture.stream []
                  eq_refl eq_refl)).
Defined.

(** C2 (as the code has it): with a mode other than "total", valid
    statistic names, channel lists that parse and files that load, [main]
    loads every file and computes its statistics, in the order of the
    command line, and only then raises NotImplementedError, before any
    plot; the process ends with a non-zero exit code. A statistic name
    that is not available, on the other hand, ends the run with
    AssertionError before anything else is done. *)
Theorem per_channel_mode_raises_after_files
    tsf sf mean std py_int RawData set_iter plot (args : Args) (chs : gset Z) :
  list_to_set (split "," (stats args)) ∖ stats_available = (∅ : gset string) →
  select_channels py_int (channels args) (exclude_channels args) = Ok chs →
  Forall (loads RawData) (files args) →
  files args ≠ [] →
  mode args ≠ "total" →
  let run := main tsf sf mean std py_int RawData set_iter plot args in
  run = (concat (map file_events (files args)), Raise NotImplementedError)
  ∧ (∃ sd,
       process_files tsf sf mean std RawData (split "," (stats args))
         (normalize args) (set_iter chs) (t0 args) (t1 args) (files args) ∅
       = (concat (map file_events (files args)), Ok sd))
  ∧ (∀ f, f ∈ files args → EvLoad f ∈ run.1)
  ∧ exit_code run.2 = 1
  ∧ (∀ args',
       list_to_set (split "," (stats args')) ∖ stats_available
       ≠ (∅ : gset string) →
       main tsf sf mean std py_int RawData set_iter plot args'
       = ([], Raise AssertionError)).
Proof.
  intros Hstats Hsel Hloads Hne Hmode run.
  assert (Hassert : ∀ args',
            list_to_set (split "," (stats args')) ∖ stats_available
            ≠ (∅ : gset string) →
            main tsf sf mean std py_int RawData set_iter plot args'
            = ([], Raise AssertionError)).
  { intros args' Hbad. unfold main. by rewrite bool_decide_eq_false_2. }
  destruct (statistics_ok tsf sf mean std RawData (split "," (stats args))
              (normalize args) (set_iter chs) (t0 args) (t1 args) (files args)
              Hloads Hne) as (sd & sd1 & [sd2 labels] & Hrun & Harr & _ & Hout).
  assert (E : run = (concat (map file_events (files args)),
                     Raise NotImplementedError)).
  { unfold run, main. rewrite bool_decide_eq_true_2 by exact Hstats.
    rewrite Hsel, Hrun. simpl. rewrite Harr. simpl. rewrite Hout.
    by rewrite decide_False. }
  split; [exact E |]. split; [by exists sd |]. rewrite E.
  split; [| by split].
  intros f Hf. simpl. apply list_elem_of_In, in_concat.
  exists (file_events f). split.
  - apply in_map. by apply list_elem_of_In.
  - right. by left.
Qed.

Lemma per_channel_mode_raises_after_files_witness :
  Fixture.run Fixture.per_channel_args
  = (concat (map file_events ["d/a.h5"; "b.h5"]), Raise NotImplementedError).
Proof.
  refine (proj1 (per_channel_mode_raises_after_files
                   get_timestamp_data_in_range get_stream_data_in_range
                   Fixture.mean Fixture.std Fixture.dec_int Fixture.loader
                   elements Fixture.render Fixture.per_channel_args
                   (list_to_set [0; 1; 2; 2]) _ _ _ _ _)).
  - vm_compute. reflexivity.
  - vm_compute. reflexivity.
  - repeat constructor;
      exists Fixture.raw, Fixture.rec, [], Fixture.stream, [],
             {| timestamp_entity := Fixture.events |}, [];
      repeat split; reflexivity.
  - discriminate.
  - discriminate.
Defined.

(** C2 (as stated) fails: in per-channel mode both files are loaded before
    the run ends with NotImplementedError. *)
Lemma per_channel_mode_not_eager :
  (Fixture.run Fixture.per_channel_args).2 = Raise NotImplementedError
  ∧ In (EvLoad "d/a.h5") (Fixture.run Fixture.per_channel_args).1
  ∧ In (EvLoad "b.h5") (Fixture.run Fixture.per_channel_args).1.
Proof. vm_compute. auto 10. Qed.

(** * Further properties of [plot_hdf5_stats.py] *)

(** ** Errors of the statistic functions *)


(** ** Shapes in [normalize_stats] *)

Lemma bdim_mismatch n k :
  n ≠ k → n ≠ 1%nat → k ≠ 1%nat → bdim n k = None.
Proof. intros. unfold bdim. by rewrite !decide_False. Qed.

Lemma div_rows_single m (rows : list (list float)) d dv :
  Forall (fun r => length r = m) rows →
  to_float d = Some dv →
  all_ok (zip_with (div_row m) (map frow rows)
            (replicate (length rows) [d]))
  = Ok (map frow (map (map (fun x => (x / dv)%float)) rows)).
Proof.
  intros Hrows Hd. induction Hrows as [|r rows Hr Hrows IH]; [done |].
  simpl. rewrite <- Hr, (div_row_scalar r d dv Hd). simpl.
  rewrite Hr, IH. reflexivity.
Qed.



(** A statistic vector of rank one is divided entry by entry by a divisor
    vector of the same length: the divisor is reshaped to a column only
    under a table of higher rank. *)
Theorem normalize_stats_rank_one (xs : list float) (ds : list cell)
    (dvs : list float) :
  Forall2 (fun d dv => to_float d = Some dv) ds dvs →
  length ds = length xs →
  normalize_stats (PArr (A1 (frow xs))) (PArr (A1 ds))
  = Ok (A1 (frow (zip_with PrimFloat.div xs dvs))).
Proof.
  intros Hds Hlen. unfold normalize_stats. simpl.
  unfold frow at 1. rewrite length_map, <- Hlen, bdim_same. unfold div_row.
  rewrite !stretch_id by (unfold frow; rewrite ?length_map; lia).
  assert (E : zip_with cell_div (frow xs) ds
              = map (fun q => Ok (CFloat q)) (zip_with PrimFloat.div xs dvs)).
  { clear Hlen. revert xs.
    induction Hds as [|d dv ds dvs Hd Hds IH]; intros [|x xs]; try done.
    change (zip_with cell_div (frow (x :: xs)) (d :: ds))
      with (cell_div (CFloat x) d :: zip_with cell_div (frow xs) ds).
    by rewrite (cell_div_scalar x d dv Hd), IH. }
  rewrite E, (all_ok_map_Ok CFloat). reflexivity.
Qed.

Lemma normalize_stats_rank_one_witness :
  normalize_stats (PArr (A1 (frow [6; 9]%float))) (PArr (A1 [CInt 3; CInt 3]))
  = Ok (A1 (frow [2; 3]%float)).
Proof.
  apply (normalize_stats_rank_one [6; 9]%float [CInt 3; CInt 3] [3; 3]%float).
  - repeat constructor.
  - reflexivity.
Defined.

(** ** The labels and the repeated normalisation *)

Lemma normalize_loop_labels stats : ∀ i sd pre mid sd' labels',
  length pre = i → length mid = length stats →
  normalize_loop i stats sd (pre ++ mid)%list = Ok (sd', labels') →
  labels' = (pre ++ zip_with (fun k l => if is_rate k
                                         then (l ++ " (normalized)")%string
                                         else l) stats mid)%list.
Proof.
  induction stats as [|k0 rest IH]; intros i sd pre mid sd' labels' Hpre Hmid Hrun.
  - destruct mid; [| done]. by injection Hrun as _ <-.
  - destruct mid as [|l0 mid]; [done |]. simpl in Hmid, Hrun.
    destruct (is_rate k0) eqn:Hk0.
    + destruct (normalize_stats _ _) as [a|e]; [simpl in Hrun | done].
      replace i with (length pre + 0)%nat in Hrun at 2 by lia.
      rewrite alter_app_r in Hrun. simpl in Hrun.
      rewrite (cons_middle _ pre mid) in Hrun.
      rewrite app_assoc in Hrun.
      apply IH in Hrun; [| rewrite length_app; simpl; lia | lia].
      rewrite Hrun. simpl. rewrite Hk0. by rewrite <- app_assoc.
    + rewrite (cons_middle _ pre mid), app_assoc in Hrun.
      apply IH in Hrun; [| rewrite length_app; simpl; lia | lia].
      rewrite Hrun. simpl. rewrite Hk0. by rewrite <- app_assoc.
Qed.

Lemma zip_with_label_of stats :
  zip_with (fun k l => if is_rate k then l ++ " (normalized)" else l)
    stats stats
  = map label_of stats.
Proof. induction stats as [|k rest IH]; simpl; [done |]. by rewrite IH. Qed.

(** Lines 177-184: when the normalisation succeeds, the labels are the
    statistic names, in their order, with " (normalized)" added to every
    [spike_count] and [bit_count] if the flag is set, and to none if not. *)
Theorem normalize_step_labels nz stats sd sd' labels' :
  normalize_step nz stats sd = Ok (sd', labels') →
  labels' = (if nz then map label_of stats else stats)
  ∧ length labels' = length stats.
Proof.
  intros Hrun. unfold normalize_step in Hrun.
  assert (E : labels' = if nz then map label_of stats else stats).
  { destruct nz; [| by injection Hrun as _ <-].
    apply (normalize_loop_labels stats 0 sd [] stats) in Hrun; [| done..].
    by rewrite Hrun, zip_with_label_of. }
  split; [exact E |]. rewrite E. destruct nz; [apply length_map | done].
Qed.

Lemma normalize_step_labels_witness :
  normalize_step true ["sample_count"; "spike_count"]
    (<["spike_count" := PArr (A2 1 [frow [8]%float])]>
       (<["sample_count" := PArr (A1 [CInt 4])]> ∅))
  = Ok (<["spike_count" := PArr (A2 1 [frow [2]%float])]>
          (<["sample_count" := PArr (A1 [CInt 4])]> ∅),
        ["sample_count"; "spike_count (normalized)"])
  ∧ ["sample_count"; "spike_count (normalized)"]
    = map label_of ["sample_count"; "spike_count"].
Proof.
  assert (Hrun : normalize_step true ["sample_count"; "spike_count"]
            (<["spike_count" := PArr (A2 1 [frow [8]%float])]>
               (<["sample_count" := PArr (A1 [CInt 4])]> ∅))
          = Ok (<["spike_count" := PArr (A2 1 [frow [2]%float])]>
                  (<["sample_count" := PArr (A1 [CInt 4])]> ∅),
                ["sample_count"; "spike_count (normalized)"]))
    by (vm_compute; reflexivity).
  split; [exact Hrun |].
  exact (proj1 (normalize_step_labels true _ _ _ _ Hrun)).
Defined.

Lemma occurrences_cons k k0 rest :
  occurrences k (k0 :: rest)
  = if decide (k = k0) then S (occurrences k rest) else occurrences k rest.
Proof.
  unfold occurrences. simpl. destruct (decide (k = k0)) as [->|Hne].
  - by rewrite String.eqb_refl.
  - apply String.eqb_neq in Hne. by rewrite Hne.
Qed.

Lemma normalize_loop_times stats : ∀ i sd labels sd' labels',
  normalize_loop i stats sd labels = Ok (sd', labels') →
  ∀ k, is_rate k = true →
  normalize_times (dd_get "sample_count" sd) (occurrences k stats)
    (dd_get k sd)
  = Ok (dd_get k sd').
Proof.
  induction stats as [|k0 rest IH]; intros i sd labels sd' labels' Hrun k Hk.
  - by injection Hrun as <- _.
  - rewrite occurrences_cons. simpl in Hrun.
    destruct (is_rate k0) eqn:Hk0.
    + destruct (normalize_stats _ _) as [a|e] eqn:Hn; [simpl in Hrun | done].
      pose proof (IH _ _ _ _ _ Hrun k Hk) as Hrest.
      assert (Hsc : dd_get "sample_count" (<[k0 := PArr a]> sd)
                    = dd_get "sample_count" sd).
      { unfold dd_get. rewrite lookup_insert_ne; [done |].
        intros ->. by apply is_rate_cases in Hk0 as [?|?]. }
      rewrite Hsc in Hrest. destruct (decide (k = k0)) as [->|Hne].
      * simpl. rewrite Hn. simpl. rewrite <- Hrest. f_equal.
        unfold dd_get. by rewrite lookup_insert_eq.
      * rewrite <- Hrest. f_equal. unfold dd_get.
        by rewrite lookup_insert_ne.
    + destruct (decide (k = k0)) as [->|Hne]; [congruence |].
      by eapply IH.
Qed.

(** Lines 179-183: the loop runs over the statistic names as given, so a
    [spike_count] or [bit_count] table is divided by the sample counts once
    for each time its name is listed: twice if it is listed twice. *)
Theorem normalized_once_per_occurrence stats sd sd' labels' k :
  normalize_step true stats sd = Ok (sd', labels') →
  k = "spike_count" ∨ k = "bit_count" →
  normalize_times (dd_get "sample_count" sd) (occurrences k stats)
    (dd_get k sd)
  = Ok (dd_get k sd').
Proof.
  intros Hrun Hk. apply (normalize_loop_times _ _ _ _ _ _ Hrun).
  by apply is_rate_cases.
Qed.

Lemma normalized_once_per_occurrence_witness :
  normalize_times (PArr (A1 [CInt 2])) 2 (PArr (A2 1 [frow [8]%float]))
  = Ok (PArr (A2 1 [frow [2]%float])).
Proof.
  assert (Hrun : normalize_step true ["spike_count"; "spike_count"]
            (<["spike_count" := PArr (A2 1 [frow [8]%float])]>
               (<["sample_count" := PArr (A1 [CInt 2])]> ∅))
          = Ok (<["spike_count" := PArr (A2 1 [frow [2]%float])]>
                  (<["sample_count" := PArr (A1 [CInt 2])]> ∅),
                ["spike_count (normalized)"; "spike_count (normalized)"]))
    by (vm_compute; reflexivity).
  exact (normalized_once_per_occurrence _ _ _ _ "spike_count" Hrun
           (or_introl eq_refl)).
Defined.

(** ** What [main] refuses before it reads a file *)

Lemma stats_check_fails (names : list string) s :
  s ∈ names → s ∉ ["sample_count"; "spike_count"; "bit_count"; "mean"; "std"] →
  list_to_set names ∖ stats_available ≠ (∅ : gset string).
Proof.
  intros Hin Hout Hempty.
  assert (Hs : s ∈ (list_to_set names ∖ stats_available : gset string)).
  { apply elem_of_difference. split; [by apply elem_of_list_to_set |].
    unfold stats_available. by rewrite elem_of_list_to_set. }
  rewrite Hempty in Hs. by apply not_elem_of_empty in Hs.
Qed.

Lemma stats_check_passes (names : list string) :
  (∀ s, s ∈ names →
        s ∈ ["sample_count"; "spike_count"; "bit_count"; "mean"; "std"]) →
  list_to_set names ∖ stats_available = (∅ : gset string).
Proof.
  intros Hall. apply set_eq. intros s.
  rewrite elem_of_difference, elem_of_list_to_set. unfold stats_available.
  rewrite elem_of_list_to_set. split; [| by intros ?%not_elem_of_empty].
  intros [Hin Hout]. destruct Hout. by apply Hall.
Qed.

(** Line 134: a statistic name that is not one of the five available
    names ends [main] with AssertionError before anything is printed, parsed
    or loaded; the empty name of an empty list or of a trailing comma is
    such a name. *)
Theorem main_rejects_unknown_statistic
    tsf sf mean std py_int RawData set_iter plot (args : Args) (s : string) :
  s ∈ split "," (stats args) →
  s ∉ ["sample_count"; "spike_count"; "bit_count"; "mean"; "std"] →
  main tsf sf mean std py_int RawData set_iter plot args
  = ([], Raise AssertionError).
Proof.
  intros Hin Hout. unfold main. rewrite bool_decide_eq_false_2; [done |].
  by eapply stats_check_fails.
Qed.

Lemma main_rejects_unknown_statistic_witness :
  Fixture.run
    {| output := None; stats := "spike_count,"; mode := "total";
       t0 := 0; t1 := infinity; channels := None; exclude_channels := None;
       normalize := false; files := ["a.h5"] |}
  = ([], Raise AssertionError).
Proof.
  apply (main_rejects_unknown_statistic _ _ _ _ _ _ _ _ _ "").
  - vm_compute. apply list_elem_of_In. right. by left.
  - intros H. apply list_elem_of_In in H. simpl in H.
    repeat destruct H as [H|H]; discriminate || done.
Defined.

Lemma all_ok_Raise {A B} (f : A → result B) (l : list A) w e0 :
  w ∈ l → f w = Raise e0 →
  ∃ e w', all_ok (map f l) = Raise e ∧ f w' = Raise e.
Proof.
  induction l as [|x l IH]; intros Hin Hw; [by apply elem_of_nil in Hin |].
  simpl. destruct (f x) as [b|e] eqn:Hx.
  - apply elem_of_cons in Hin as [->|Hin]; [congruence |].
    destruct (IH Hin Hw) as (e & w' & -> & Hw'). by exists e, w'.
  - by exists e, x.
Qed.

(** Lines 138-149: an item of the channel list, or of the exclusion list,
    that [int] refuses ends [main] with the exception of [int] before any
    file is printed or loaded. *)
Theorem main_refuses_bad_channel_list
    tsf sf mean std py_int RawData set_iter plot (args : Args) (e0 : exn) :
  (∀ s, s ∈ split "," (stats args) →
        s ∈ ["sample_count"; "spike_count"; "bit_count"; "mean"; "std"]) →
  bad_list py_int (channels args) e0
  ∨ bad_list py_int (exclude_channels args) e0 →
  ∃ e w, main tsf sf mean std py_int RawData set_iter plot args
         = ([], Raise e)
         ∧ py_int w = Raise e.
Proof.
  intros Hstats Hbad.
  assert (Hsel : ∃ e w, select_channels py_int (channels args)
                          (exclude_channels args) = Raise e
                        ∧ py_int w = Raise e).
  { unfold select_channels, parse_channels.
    destruct Hbad as [(s & w & Hs & Hw & He)|(s & w & Hs & Hw & He)].
    - rewrite Hs. destruct (all_ok_Raise py_int _ w e0 Hw He)
        as (e & w' & -> & Hw'). by exists e, w'.
    - rewrite Hs. destruct (all_ok_Raise py_int _ w e0 Hw He)
        as (e & w' & Hall & Hw').
      destruct (match truthy (channels args) with
                | Some s0 => _
                | None => _
                end) as [incl|e1] eqn:Hincl.
      + simpl. rewrite Hall. by exists e, w'.
      + exists e1. destruct (truthy (channels args)) as [s0|]; [| done].
        destruct (all_ok (map py_int (split "," s0))) as [l|e2] eqn:Hl0;
          [done |]. simpl in Hincl. injection Hincl as <-.
        clear -Hl0. induction (split "," s0) as [|x l IH]; [done |].
        simpl in Hl0. destruct (py_int x) as [z|e3] eqn:Hx.
        * destruct (all_ok (map py_int l)); [done |].
          simpl in Hl0. injection Hl0 as <-. by apply IH.
        * simpl in Hl0. injection Hl0 as <-. by exists x. }
  destruct Hsel as (e & w & Hsel & Hw). exists e, w. split; [| done].
  unfold main. rewrite bool_decide_eq_true_2 by by apply stats_check_passes.
  by rewrite Hsel.
Qed.

Lemma main_refuses_bad_channel_list_witness :
  ∃ e, Fixture.run
         {| output := None; stats := "spike_count"; mode := "total";
            t0 := 0; t1 := infinity; channels := Some "1,x";
            exclude_channels := None; normalize := false;
            files := ["a.h5"] |}
       = ([], Raise e).
Proof.
  edestruct (main_refuses_bad_channel_list
               get_timestamp_data_in_range get_stream_data_in_range
               Fixture.mean Fixture.std Fixture.dec_int Fixture.loader
               elements Fixture.render
               {| output := None; stats := "spike_count"; mode := "total";
                  t0 := 0; t1 := infinity; channels := Some "1,x";
                  exclude_channels := None; normalize := false;
                  files := ["a.h5"] |} ValueError) as (e & w & Hrun & _).
  - intros s Hs. vm_compute in Hs. apply list_elem_of_In in Hs.
    destruct Hs as [<-|[]]. apply list_elem_of_In. right. by left.
  - left. exists "1,x", "x". split; [done |]. split; [| done].
    vm_compute. apply list_elem_of_In. right. by left.
  - exists e. exact Hrun.
Defined.

(** ** The loop over the files, file by file *)

Section FileOrder.

Variable tsf : gmap Z (list float) → list Z → float → float → gmap Z (list float).
Variable sf : analog_stream → list Z → float → float → gmap Z (list float).
Variable mean std : list float → float.
Variable RawData : string → result raw_data.
Variable stats : list string.
Variable nz : bool.
Variable chs : list Z.
Variable t0 t1 : float.

Lemma process_file_load_error f e sd :
  load_error RawData f e →
  process_file tsf sf mean std RawData stats nz chs t0 t1 f sd
  = (file_events f, Raise e).
Proof.
  unfold process_file, file_events. intros [Hraw|(raw & Hraw & -> & Hmiss)];
    f_equal; rewrite Hraw; simpl; [done |].
  destruct Hmiss as [->|(rec & recs & -> & [Ha|Ht])]; simpl; [done | ..].
  - by rewrite Ha.
  - rewrite Ht. by destruct (analog_streams rec).
Qed.

Lemma process_files_app good rest : ∀ sd,
  process_files tsf sf mean std RawData stats nz chs t0 t1 (good ++ rest) sd
  = match process_files tsf sf mean std RawData stats nz chs t0 t1 good sd with
    | (tr, Raise e) => (tr, Raise e)
    | (tr, Ok sd') =>
        let '(tr', r) :=
          process_files tsf sf mean std RawData stats nz chs t0 t1 rest sd' in
        ((tr ++ tr')%list, r)
    end.
Proof.
  induction good as [|f good IH]; intros sd.
  - simpl. by destruct (process_files _ _ _ _ _ _ _ _ _ _ rest sd).
  - change ((f :: good) ++ rest)%list with (f :: (good ++ rest))%list.
    rewrite !process_files_cons.
    destruct (process_file _ _ _ _ _ _ _ _ _ _ f sd) as [tr [sd1|e]]; [| done].
    rewrite IH.
    destruct (process_files _ _ _ _ _ _ _ _ _ _ good sd1) as [tr1 [sd2|e]];
      [| done].
    destruct (process_files _ _ _ _ _ _ _ _ _ _ rest sd2) as [tr2 r].
    by rewrite app_assoc.
Qed.

Lemma process_files_first_failure good bad rest e :
  Forall (loads RawData) good →
  load_error RawData bad e →
  process_files tsf sf mean std RawData stats nz chs t0 t1
    (good ++ bad :: rest) ∅
  = ((concat (map file_events good) ++ file_events bad)%list, Raise e).
Proof.
  intros Hgood Hbad. rewrite process_files_app.
  destruct (process_files_collected tsf sf mean std RawData stats nz
              chs t0 t1 good ∅ 0 Hgood (collected_empty _ _ _))
    as (sd & -> & _).
  rewrite process_files_cons, (process_file_load_error bad e sd Hbad).
  reflexivity.
Qed.

(** What one file that loads adds to [stats_data]. *)
Lemma process_file_Ok f sd tr sd' :
  lists_only sd →
  process_file tsf sf mean std RawData stats nz chs t0 t1 f sd = (tr, Ok sd') →
  ∃ raw z v b,
    loads RawData f
    ∧ RawData f = Ok raw
    ∧ sample_count raw = Ok z
    ∧ (spike_count tsf raw chs t0 t1 = Ok v ∧ length v = length chs)
    ∧ (bit_count sf mean std raw chs t0 t1 = Ok b ∧ length b = length chs)
    ∧ sd' = app_if (want_bits stats) "bit_count" (CVec b)
              (app_if (want_spikes stats) "spike_count" (CVec v)
                 (app_if (want_samples stats nz) "sample_count" (CInt z) sd)).
Proof.
  intros Hl Hrun.
  destruct (RawData f) as [raw|e] eqn:Hraw;
    [| unfold process_file in Hrun; rewrite Hraw in Hrun; done].
  destruct (recordings raw) as [|rec recs] eqn:Hrec;
    [unfold process_file in Hrun; rewrite Hraw in Hrun; simpl in Hrun;
     rewrite Hrec in Hrun; done |].
  destruct (analog_streams rec) as [|stream streams] eqn:Hst;
    [unfold process_file in Hrun; rewrite Hraw in Hrun; simpl in Hrun;
     rewrite Hrec in Hrun; simpl in Hrun; rewrite Hst in Hrun; done |].
  destruct (timestamp_streams rec) as [|ts tss] eqn:Hts;
    [unfold process_file in Hrun; rewrite Hraw in Hrun; simpl in Hrun;
     rewrite Hrec in Hrun; simpl in Hrun; rewrite Hst, Hts in Hrun; done |].
  destruct (spike_count_ok tsf raw chs t0 t1 _ _ _ _ Hrec Hts)
    as (v & Hv & Hlv & _).
  destruct (bit_count_ok sf mean std raw chs t0 t1 _ _ _ _ Hrec Hst)
    as (b & Hb & Hlb & _).
  pose proof (process_file_loads tsf sf mean std RawData stats nz chs t0 t1
                f sd _ _ _ _ _ _ _ Hraw Hrec Hst Hts Hl)
    as (v2 & v3 & _ & _ & E).
  assert (Hsc : sample_count raw
                = Ok (Z.of_nat (snd (ds_shape (channel_data stream))))).
  { unfold sample_count. rewrite Hrec. simpl. by rewrite Hst. }
  exists raw, (Z.of_nat (snd (ds_shape (channel_data stream)))), v, b.
  split; [by exists raw, rec, recs, stream, streams, ts, tss |].
  split; [done |]. split; [done |]. split; [done |]. split; [done |].
  assert (E' : process_file tsf sf mean std RawData stats nz chs t0 t1 f sd
               = (file_events f,
                  Ok (app_if (want_bits stats) "bit_count" (CVec b)
                        (app_if (want_spikes stats) "spike_count" (CVec v)
                           (app_if (want_samples stats nz) "sample_count"
                              (CInt (Z.of_nat
                                 (snd (ds_shape (channel_data stream)))))
                              sd))))).
  { clear E Hrun. unfold process_file, file_events. f_equal.
    rewrite Hraw. simpl. rewrite Hrec. simpl. rewrite Hst, Hts. simpl.
    rewrite Hsc, Hv, Hb. fold (want_samples stats nz) (want_spikes stats)
      (want_bits stats).
    unfold app_if.
    destruct (want_samples stats nz); simpl;
      [rewrite dd_append_lists by done; simpl |];
      (destruct (want_spikes stats); simpl;
       [rewrite dd_append_lists by (try apply (app_if_lists true); done);
        simpl |]);
      (destruct (want_bits stats); simpl; [| done]);
      rewrite dd_append_lists; try done;
      repeat (apply (app_if_lists true)); done. }
  rewrite E' in Hrun. by injection Hrun as _ <-.
Qed.

Lemma items_app_if_same flag k c sd :
  items k (app_if flag k c sd)
  = (items k sd ++ if flag then [c] else [])%list.
Proof.
  unfold app_if. destruct flag; [| by rewrite app_nil_r].
  unfold items at 1. by rewrite lookup_insert_eq.
Qed.

Lemma items_app_if_other flag k c sd k' :
  k ≠ k' → items k' (app_if flag k c sd) = items k' sd.
Proof. intros Hne. unfold items. by rewrite app_if_other. Qed.

Lemma dd_get_items k sd : lists_only sd → dd_get k sd = PList (items k sd).
Proof.
  intros Hl. unfold dd_get, items. destruct (sd !! k) as [v|] eqn:E; [| done].
  by destruct (Hl k v E) as [l ->].
Qed.

Lemma process_files_items files : ∀ sd tr sd',
  lists_only sd →
  process_files tsf sf mean std RawData stats nz chs t0 t1 files sd
  = (tr, Ok sd') →
  lists_only sd'
  ∧ Forall (loads RawData) files
  ∧ ∃ zs vs bs,
      Forall2 (fun f z => ∃ raw, RawData f = Ok raw ∧ sample_count raw = Ok z)
        files zs
      ∧ Forall2 (fun f v => ∃ raw, RawData f = Ok raw
                   ∧ spike_count tsf raw chs t0 t1 = Ok v
                   ∧ length v = length chs) files vs
      ∧ Forall2 (fun f b => ∃ raw, RawData f = Ok raw
                   ∧ bit_count sf mean std raw chs t0 t1 = Ok b
                   ∧ length b = length chs) files bs
      ∧ items "sample_count" sd'
        = (items "sample_count" sd
             ++ if want_samples stats nz then map CInt zs else [])%list
      ∧ items "spike_count" sd'
        = (items "spike_count" sd
             ++ if want_spikes stats then map CVec vs else [])%list
      ∧ items "bit_count" sd'
        = (items "bit_count" sd
             ++ if want_bits stats then map CVec bs else [])%list.
Proof.
  induction files as [|f files IH]; intros sd tr sd' Hl Hrun.
  - injection Hrun as _ <-. split; [done |]. split; [done |].
    exists [], [], [].
    split; [constructor |]. split; [constructor |]. split; [constructor |].
    simpl.
    destruct (want_samples stats nz), (want_spikes stats), (want_bits stats);
      by rewrite !app_nil_r.
  - rewrite process_files_cons in Hrun.
    destruct (process_file _ _ _ _ _ _ _ _ _ _ f sd) as [tr1 [sd1|e]] eqn:Hf;
      [| done].
    destruct (process_file_Ok f sd tr1 sd1 Hl Hf)
      as (raw & z & v & b & Hloads & Hraw & Hz & [Hv Hlv] & [Hb Hlb] & Hsd1).
    assert (Hl1 : lists_only sd1)
      by (subst sd1; do 3 apply app_if_lists; exact Hl).
    destruct (process_files _ _ _ _ _ _ _ _ _ _ files sd1) as [tr2 r2] eqn:Hr.
    injection Hrun as _ ->.
    destruct (IH sd1 tr2 sd' Hl1 Hr)
      as (Hl' & Hall & zs & vs & bs & Hzs & Hvs & Hbs & E1 & E2 & E3).
    split; [done |]. split; [by constructor |].
    exists (z :: zs), (v :: vs), (b :: bs).
    split; [constructor; [by exists raw | done] |].
    split; [constructor; [by exists raw | done] |].
    split; [constructor; [by exists raw | done] |].
    rewrite E1, E2, E3, Hsd1.
    rewrite (items_app_if_other _ "bit_count" _ _ "sample_count") by done.
    rewrite (items_app_if_other _ "spike_count" _ _ "sample_count") by done.
    rewrite (items_app_if_other _ "bit_count" _ _ "spike_count") by done.
    rewrite !items_app_if_same.
    rewrite (items_app_if_other _ "sample_count" _ _ "spike_count") by done.
    rewrite (items_app_if_other _ "spike_count" _ _ "bit_count") by done.
    rewrite (items_app_if_other _ "sample_count" _ _ "bit_count") by done.
    rewrite <- !app_assoc.
    by destruct (want_samples stats nz), (want_spikes stats),
                (want_bits stats).
Qed.

End FileOrder.

(** Lines 151-157: the files are read in the order of the command line and
    the first one that cannot be loaded, or that lacks its recording, its
    analog stream or its timestamp stream (whatever statistics are asked
    for), ends [main] with that exception; no later file is touched. *)
Theorem main_stops_at_first_bad_file
    tsf sf mean std py_int RawData set_iter plot (args : Args) (chs : gset Z)
    (good : list string) (bad : string) (rest : list string) (e : exn) :
  (∀ s, s ∈ split "," (stats args) →
        s ∈ ["sample_count"; "spike_count"; "bit_count"; "mean"; "std"]) →
  select_channels py_int (channels args) (exclude_channels args) = Ok chs →
  files args = (good ++ bad :: rest)%list →
  Forall (loads RawData) good →
  load_error RawData bad e →
  main tsf sf mean std py_int RawData set_iter plot args
  = ((concat (map file_events good) ++ file_events bad)%list, Raise e).
Proof.
  intros Hstats Hsel Hfiles Hgood Hbad. unfold main.
  rewrite bool_decide_eq_true_2 by by apply stats_check_passes.
  rewrite Hsel, Hfiles.
  by rewrite (process_files_first_failure tsf sf mean std RawData _ _ _ _ _
                good bad rest e Hgood Hbad).
Qed.

Lemma main_stops_at_first_bad_file_witness :
  Fixture.run
    {| output := None; stats := "bit_count"; mode := "total";
       t0 := 0; t1 := infinity; channels := None; exclude_channels := None;
       normalize := false; files := ["a.h5"; "missing.h5"; "b.h5"] |}
  = ([EvPrint "Processing a.h5..."; EvLoad "a.h5";
      EvPrint "Processing missing.h5..."; EvLoad "missing.h5"],
     Raise IOError).
Proof.
  apply (main_stops_at_first_bad_file
           get_timestamp_data_in_range get_stream_data_in_range
           Fixture.mean Fixture.std Fixture.dec_int Fixture.loader
           elements Fixture.render _
           (list_to_set (map Z.of_nat (seq 0 60)))
           ["a.h5"] "missing.h5" ["b.h5"] IOError).
  - intros s Hs. vm_compute in Hs. apply list_elem_of_In in Hs.
    destruct Hs as [<-|[]]. apply list_elem_of_In. right. right. by left.
  - reflexivity.
  - reflexivity.
  - repeat constructor.
    exists Fixture.raw, Fixture.rec, [], Fixture.stream, [],
           {| timestamp_entity := Fixture.events |}, [].
    repeat split; reflexivity.
  - left. reflexivity.
Defined.

Lemma Forall2_lengths {A} (R : string → list A → Prop) (n : nat) files vs :
  Forall2 R files vs → (∀ f v, R f v → length v = n) →
  Forall (fun v => length v = n) vs.
Proof. induction 1; intros HR; constructor; eauto. Qed.

(** Lines 151-175: when the loop over the files ends, the list kept for a
    statistic holds, file by file in the order of the command line, the
    sample count or the vector that the statistic function returns for
    that file (and nothing for a statistic that is not asked for); the
    array made of it has these as its entries or rows. *)
Theorem collected_in_file_order
    tsf sf mean std RawData stats nz chs t0 t1 files tr sd :
  process_files tsf sf mean std RawData stats nz chs t0 t1 files ∅
  = (tr, Ok sd) →
  ∃ zs vs bs,
    Forall2 (fun f z => ∃ raw, RawData f = Ok raw ∧ sample_count raw = Ok z)
      files zs
    ∧ Forall2 (fun f v => ∃ raw, RawData f = Ok raw
                 ∧ spike_count tsf raw chs t0 t1 = Ok v) files vs
    ∧ Forall2 (fun f b => ∃ raw, RawData f = Ok raw
                 ∧ bit_count sf mean std raw chs t0 t1 = Ok b) files bs
    ∧ dd_get "sample_count" sd
      = PList (if want_samples stats nz then map CInt zs else [])
    ∧ dd_get "spike_count" sd
      = PList (if want_spikes stats then map CVec vs else [])
    ∧ dd_get "bit_count" sd
      = PList (if want_bits stats then map CVec bs else [])
    ∧ (files ≠ [] →
       ∃ sd1, to_arrays sd = Ok sd1
         ∧ (want_samples stats nz = true →
            sd1 !! "sample_count" = Some (PArr (A1 (map CInt zs))))
         ∧ (want_spikes stats = true →
            sd1 !! "spike_count"
            = Some (PArr (A2 (length chs) (map frow vs))))
         ∧ (want_bits stats = true →
            sd1 !! "bit_count"
            = Some (PArr (A2 (length chs) (map frow bs))))).
Proof.
  intros Hrun.
  assert (Hempty : lists_only ∅) by (intros k v; by rewrite lookup_empty).
  destruct (process_files_items tsf sf mean std RawData stats nz chs t0 t1
              files ∅ tr sd Hempty Hrun)
    as (Hl & Hloads & zs & vs & bs & Hzs & Hvs & Hbs & E1 & E2 & E3).
  change (items _ ∅) with (@nil cell) in E1, E2, E3. simpl in E1, E2, E3.
  exists zs, vs, bs.
  split; [done |].
  split; [eapply Forall2_impl; [exact Hvs |]; by intros f v (raw & ? & ? & _);
          exists raw |].
  split; [eapply Forall2_impl; [exact Hbs |]; by intros f v (raw & ? & ? & _);
          exists raw |].
  rewrite !dd_get_items, E1, E2, E3 by done.
  split; [done |]. split; [done |]. split; [done |].
  intros Hne.
  destruct (process_files_collected tsf sf mean std RawData stats nz chs t0 t1
              files ∅ 0 Hloads (collected_empty _ _ _)) as (sd0 & Hrun0 & Hcol).
  rewrite Hrun in Hrun0. injection Hrun0 as _ <-. simpl in Hcol.
  assert (Hn : (0 < length files)%nat) by (destruct files; [done | simpl; lia]).
  destruct (to_arrays_collected stats nz _ _ sd Hcol Hn) as (sd1 & Harr & _).
  exists sd1. split; [done |].
  assert (Hsd1 : sd1 = omap array_of sd).
  { unfold to_arrays in Harr. destruct (bool_decide _); [| done].
    by injection Harr as <-. }
  assert (Hlook : ∀ k l, items k sd = l → l ≠ [] → sd !! k = Some (PList l)).
  { intros k l Hk Hl0. unfold items in Hk.
    destruct (sd !! k) as [v|] eqn:E; [| congruence].
    destruct (Hl k v E) as [l' ->]. congruence. }
  assert (Hvec : ∀ ws : list (list float),
            ws ≠ [] → Forall (fun w => length w = length chs) ws →
            array_of (PList (map CVec ws))
            = Some (PArr (A2 (length chs) (map frow ws)))).
  { intros [|w ws] Hws Hall; [done |]. apply Forall_cons in Hall as [Hw Hall].
    unfold array_of, as_array. rewrite array_rows.
    - simpl. by rewrite Hw.
    - eapply Forall_impl; [exact Hall |]. simpl. congruence. }
  assert (Hnz : ∀ {A B} (R : string → A → Prop) (f : A → B) (l : list A),
            Forall2 R files l → map f l ≠ []).
  { intros A B R f l HF. destruct HF; [done | simpl; discriminate]. }
  subst sd1. split; [| split]; intros Hflag; rewrite lookup_omap.
  - rewrite Hflag in E1.
    rewrite (Hlook _ _ E1 (Hnz _ _ _ CInt zs Hzs)). simpl.
    unfold array_of, as_array. by rewrite array_ints.
  - rewrite Hflag in E2.
    rewrite (Hlook _ _ E2 (Hnz _ _ _ CVec vs Hvs)). simpl.
    apply Hvec.
    + intros ->. by apply (Hnz _ _ _ CVec [] Hvs).
    + eapply Forall2_lengths; [exact Hvs |].
      by intros f v (raw & _ & _ & H).
  - rewrite Hflag in E3.
    rewrite (Hlook _ _ E3 (Hnz _ _ _ CVec bs Hbs)). simpl.
    apply Hvec.
    + intros ->. by apply (Hnz _ _ _ CVec [] Hbs).
    + eapply Forall2_lengths; [exact Hbs |].
      by intros f v (raw & _ & _ & H).
Qed.

Lemma collected_in_file_order_witness :
  ∃ vs,
    Forall2 (fun f v => ∃ raw, Fixture.loader f = Ok raw
               ∧ spike_count get_timestamp_data_in_range raw [0; 1; 2]
                   0%float infinity = Ok v) ["a.h5"] vs
    ∧ dd_get "spike_count"
        (<["spike_count" := PList [CVec [3; 0; 1]%float]]> ∅)
      = PList (map CVec vs).
Proof.
  destruct (collected_in_file_order
              get_timestamp_data_in_range get_stream_data_in_range
              Fixture.mean Fixture.std Fixture.loader ["spike_count"] false
              [0; 1; 2] 0%float infinity ["a.h5"] (file_events "a.h5")
              (<["spike_count" := PList [CVec [3; 0; 1]%float]]> ∅))
    as (zs & vs & bs & _ & Hvs & _ & _ & E & _).
  - vm_compute. reflexivity.
  - exists vs. split; [exact Hvs | exact E].
Defined.

(** ** The plot of the totals *)

Section Totals.

Variable np_sum : list cell → cell.
Variable stats : list string.
Variable nz : bool.
Variable m n : nat.

Lemma normalize_loop_aggregated ks : ∀ i sd labels sd' labels',
  (∀ k, k ∈ ks → k ∈ stats) → nz = true →
  aggregated stats nz m n sd →
  normalize_loop i ks sd labels = Ok (sd', labels') →
  aggregated stats nz m n sd'.
Proof.
  induction ks as [|k0 ks IH]; intros i sd labels sd' labels' Hsub Hnz Hagg Hrun.
  - by injection Hrun as <- _.
  - assert (Hsub' : ∀ k, k ∈ ks → k ∈ stats)
      by (intros k Hk; apply Hsub; by right).
    simpl in Hrun. destruct (is_rate k0) eqn:Hk0; [| by eapply IH].
    destruct (aggregated_normalizable stats nz m n sd Hagg) as [Hsc Htab].
    { unfold want_samples. rewrite Hnz. apply orb_true_r. }
    destruct Hsc as (zs & Hzs & Hlen).
    destruct (Htab k0) as (rows & Hrows & Hn & Hall);
      [apply Hsub; by left | done |].
    unfold dd_get in Hrun. rewrite Hrows, Hzs in Hrun. simpl default in Hrun.
    rewrite (normalize_stats_rows m rows _ (map of_int zs) Hall
               (to_float_ints zs)) in Hrun by (rewrite length_map; lia).
    simpl in Hrun. eapply IH; [done | done | | exact Hrun].
    destruct (quotients_shape m rows (map of_int zs) Hall) as [Hq1 Hq2];
      [rewrite length_map; lia |].
    assert (Hnew : is_table m n
              (Some (PArr (A2 m (map frow (quotients rows (map of_int zs))))))).
    { eexists. split; [done |]. split; [lia | done]. }
    destruct Hagg as [H1 H2 H3]. apply is_rate_cases in Hk0.
    split; intros Hflag.
    + rewrite lookup_insert_ne; [by apply H1 |].
      intros ->. by destruct Hk0.
    + destruct (decide (k0 = "spike_count")) as [->|Hne].
      * by rewrite lookup_insert_eq.
      * rewrite lookup_insert_ne by done. by apply H2.
    + destruct (decide (k0 = "bit_count")) as [->|Hne].
      * by rewrite lookup_insert_eq.
      * rewrite lookup_insert_ne by done. by apply H3.
Qed.

Lemma normalize_step_aggregated sd sd' labels' :
  aggregated stats nz m n sd →
  normalize_step nz stats sd = Ok (sd', labels') →
  aggregated stats nz m n sd'.
Proof.
  intros Hagg Hrun. unfold normalize_step in Hrun.
  assert (Hnz : nz = true ∨ nz = false) by (destruct nz; auto).
  destruct Hnz as [Hnz|Hnz]; rewrite Hnz in Hrun.
  - by eapply (normalize_loop_aggregated stats).
  - by injection Hrun as <- _.
Qed.

Lemma series_aggregated sd k :
  aggregated stats nz m n sd →
  k ∈ stats → k ∈ stats_computed →
  ∃ y, series np_sum (dd_get k sd) = Ok y ∧ length y = n.
Proof.
  intros [H1 H2 H3] Hin Hk. unfold stats_computed in Hk.
  apply list_elem_of_In in Hk. simpl in Hk.
  destruct Hk as [<-|[<-|[<-|[]]]].
  - destruct H1 as (zs & Hzs & Hlen).
    { unfold want_samples. by rewrite bool_decide_eq_true_2. }
    unfold dd_get. rewrite Hzs. simpl. eexists. split; [done |].
    by rewrite length_map.
  - destruct H2 as (rows & Hrows & Hlen & _);
      [by apply bool_decide_eq_true |].
    unfold dd_get. rewrite Hrows. simpl. eexists. split; [done |].
    by rewrite !length_map.
  - destruct H3 as (rows & Hrows & Hlen & _);
      [by apply bool_decide_eq_true |].
    unfold dd_get. rewrite Hrows. simpl. eexists. split; [done |].
    by rewrite !length_map.
Qed.

Lemma plot_lines_ok sd labels ks : ∀ i,
  aggregated stats nz m n sd →
  (∀ k, k ∈ ks → k ∈ stats ∧ k ∈ stats_computed) →
  (i + length ks ≤ length labels)%nat →
  ∃ lines, plot_lines np_sum i ks sd labels = Ok lines
           ∧ map fst lines = take (length ks) (drop i labels)
           ∧ Forall (fun l => length l.2 = n) lines.
Proof.
  induction ks as [|k0 ks IH]; intros i Hagg Hsub Hlen.
  - exists []. by rewrite take_0.
  - simpl in Hlen. destruct (Hsub k0) as [Hin Hk]; [by left |].
    destruct (series_aggregated sd k0 Hagg Hin Hk) as (y & Hy & Hly).
    destruct (lookup_lt_is_Some_2 labels i) as [label Hlabel]; [lia |].
    destruct (IH (S i) Hagg) as (lines & Hlines & Hfst & Hall);
      [intros k Hk'; apply Hsub; by right | lia |].
    exists ((label, y) :: lines). split.
    + simpl. rewrite Hy. simpl. unfold item. rewrite Hlabel. simpl.
      by rewrite Hlines.
    + split; [| by constructor].
      simpl. rewrite Hfst. rewrite (drop_S labels label i Hlabel). done.
Qed.

Lemma plot_lines_attribute_error sd labels k ks : ∀ i,
  k ∈ ks → dd_get k sd = PList [] →
  (i + length ks ≤ length labels)%nat →
  plot_lines np_sum i ks sd labels = Raise AttributeError.
Proof.
  induction ks as [|k0 ks IH]; intros i Hin Hk Hlen;
    [by apply elem_of_nil in Hin |].
  simpl in *. destruct (dd_get k0 sd) as [l|a] eqn:Hk0; [done |].
  apply elem_of_cons in Hin as [->|Hin]; [congruence |].
  destruct a; simpl;
    (destruct (lookup_lt_is_Some_2 labels i) as [label Hlabel]; [lia |]);
    unfold item; rewrite Hlabel; simpl;
    rewrite (IH (S i)) by (done || lia); done.
Qed.

End Totals.

(** Lines 103-125 and 186-195: in the mode "total", with statistics among
    [sample_count], [spike_count] and [bit_count], [main] succeeds: after
    the files it draws one line per statistic named, in their order and
    under their labels, each with exactly one value per file (a table is
    summed over its channels), with the base names of the files as ticks,
    and then saves or shows the figure. This holds for every channel set,
    the empty one included. *)
Theorem main_total_mode_plots
    tsf sf mean std py_int RawData set_iter np_sum (args : Args) (chs : gset Z) :
  (∀ s, s ∈ split "," (stats args) → s ∈ stats_computed) →
  select_channels py_int (channels args) (exclude_channels args) = Ok chs →
  Forall (loads RawData) (files args) →
  files args ≠ [] →
  mode args = "total" →
  let names := split "," (stats args) in
  let labels := if normalize args then map label_of names else names in
  let xticks := map basename (files args) in
  ∃ sd lines,
    main tsf sf mean std py_int RawData set_iter (render_total np_sum) args
    = ((concat (map file_events (files args))
          ++ [EvPlot names sd xticks labels;
              match truthy (output args) with
              | Some path => EvSave path
              | None => EvShow
              end])%list, Ok tt)
    ∧ plot_stats_total np_sum names sd xticks labels = Ok lines
    ∧ map fst lines = labels
    ∧ Forall (fun l => length l.2 = length (files args)) lines.
Proof.
  intros Hstats Hsel Hloads Hne Hmode names labels xticks.
  destruct (statistics_ok tsf sf mean std RawData names (normalize args)
              (set_iter chs) (t0 args) (t1 args) (files args) Hloads Hne)
    as (sd0 & sd1 & [sd labels'] & Hrun & Harr & Hagg & Hout).
  destruct (normalize_step_labels _ _ _ _ _ Hout) as [Hlabels Hlen].
  fold labels in Hlabels. subst labels'.
  pose proof (normalize_step_aggregated _ _ _ _ _ _ _ Hagg Hout) as Hagg'.
  destruct (plot_lines_ok np_sum names (normalize args) _ _ sd labels names 0
              Hagg') as (lines & Hlines & Hfst & Hall).
  { intros k Hk. split; [done | by apply Hstats]. }
  { simpl. lia. }
  exists sd, lines. split; [| split; [exact Hlines | split; [| exact Hall]]].
  - unfold main. fold names.
    rewrite bool_decide_eq_true_2.
    2: { apply stats_check_passes. intros s Hs. specialize (Hstats s Hs).
         unfold stats_computed in Hstats.
         apply list_elem_of_In in Hstats. apply list_elem_of_In. simpl in *.
         tauto. }
    rewrite Hsel, Hrun. simpl. rewrite Harr. simpl. rewrite Hout.
    rewrite decide_True by done. fold xticks.
    unfold render_total, plot_stats_total. rewrite Hlines. reflexivity.
  - rewrite Hfst. simpl. rewrite <- Hlen. apply firstn_all.
Qed.

Lemma main_total_mode_plots_witness :
  ∃ sd lines,
    plot_stats_total (fun r => CInt 0) ["spike_count"; "sample_count"] sd
      ["a.h5"; "b.h5"] ["spike_count (normalized)"; "sample_count"]
    = Ok lines
    ∧ Forall (fun l => length l.2 = 2%nat) lines.
Proof.
  destruct (main_total_mode_plots
              get_timestamp_data_in_range get_stream_data_in_range
              Fixture.mean Fixture.std Fixture.dec_int Fixture.loader
              elements (fun r => CInt 0)
              {| output := Some "out.png"; stats := "spike_count,sample_count";
                 mode := "total"; t0 := 0; t1 := infinity;
                 channels := Some "0,1"; exclude_channels := None;
                 normalize := true; files := ["d/a.h5"; "b.h5"] |}
              (list_to_set [0; 1]))
    as (sd & lines & _ & Hlines & _ & Hall).
  - intros s Hs. vm_compute in Hs. apply list_elem_of_In in Hs.
    apply list_elem_of_In. simpl in *.
    destruct Hs as [<-|[<-|[]]]; tauto.
  - vm_compute. reflexivity.
  - repeat constructor;
      exists Fixture.raw, Fixture.rec, [], Fixture.stream, [],
             {| timestamp_entity := Fixture.events |}, [];
      repeat split; reflexivity.
  - discriminate.
  - reflexivity.
  - exists sd, lines. split; [exact Hlines | exact Hall].
Defined.

(** Lines 47, 114-115 and 159-169: the names "mean" and "std" pass the
    check of line 134, but no data is ever collected for them; in the mode
    "total" [main] then reads every file and fails with AttributeError in
    [plot_stats_total], on the empty list that stands for their data. *)
Theorem main_mean_std_fail_at_plot
    tsf sf mean std py_int RawData set_iter np_sum (args : Args) (chs : gset Z)
    (k : string) :
  (∀ s, s ∈ split "," (stats args) →
        s ∈ ["sample_count"; "spike_count"; "bit_count"; "mean"; "std"]) →
  k ∈ split "," (stats args) →
  k = "mean" ∨ k = "std" →
  select_channels py_int (channels args) (exclude_channels args) = Ok chs →
  Forall (loads RawData) (files args) →
  files args ≠ [] →
  mode args = "total" →
  ∃ sd labels,
    main tsf sf mean std py_int RawData set_iter (render_total np_sum) args
    = ((concat (map file_events (files args))
          ++ [EvPlot (split "," (stats args)) sd
                (map basename (files args)) labels])%list,
       Raise AttributeError).
Proof.
  intros Hstats Hin Hk Hsel Hloads Hne Hmode.
  set (names := split "," (stats args)) in *.
  destruct (process_files_collected tsf sf mean std RawData names
              (normalize args) (set_iter chs) (t0 args) (t1 args) (files args)
              ∅ 0 Hloads (collected_empty _ _ _)) as (sd0 & Hrun & Hcol).
  simpl in Hcol.
  destruct (to_arrays_collected names (normalize args) _ _ sd0 Hcol)
    as (sd1 & Harr & Hagg); [destruct (files args); [done | simpl; lia] |].
  destruct (normalize_step_ok names (normalize args) _ _ sd1 Hagg)
    as ([sd labels] & Hout).
  destruct (normalize_step_labels _ _ _ _ _ Hout) as [_ Hlen].
  assert (Hrate : is_rate k = false) by (by destruct Hk as [->| ->]).
  assert (Hnone : sd !! k = None).
  { assert (E0 : sd0 !! k = None)
      by (destruct Hcol as [_ Hkeys _ _ _]; apply Hkeys;
          by destruct Hk as [->| ->]).
    assert (E1 : sd1 !! k = None).
    { unfold to_arrays in Harr. destruct (bool_decide _); [| done].
      injection Harr as <-. by rewrite lookup_omap, E0. }
    unfold normalize_step in Hout. destruct (normalize args).
    - rewrite (normalize_loop_frame _ _ _ _ _ _ Hout k) by (by left). done.
    - by injection Hout as <- _. }
  exists sd, labels. unfold main. fold names.
  rewrite bool_decide_eq_true_2 by by apply stats_check_passes.
  rewrite Hsel, Hrun. simpl. rewrite Harr. simpl. rewrite Hout.
  rewrite decide_True by done.
  unfold render_total, plot_stats_total.
  rewrite (plot_lines_attribute_error np_sum sd labels k names 0 Hin).
  - reflexivity.
  - unfold dd_get. by rewrite Hnone.
  - simpl. lia.
Qed.

Lemma main_mean_std_fail_at_plot_witness :
  ∃ sd labels,
    main get_timestamp_data_in_range get_stream_data_in_range
      Fixture.mean Fixture.std Fixture.dec_int Fixture.loader elements
      (render_total (fun r => CInt 0))
      {| output := None; stats := "spike_count,mean"; mode := "total";
         t0 := 0; t1 := infinity; channels := Some "0,1";
         exclude_channels := None; normalize := false;
         files := ["a.h5"] |}
    = ([EvPrint "Processing a.h5..."; EvLoad "a.h5";
        EvPlot ["spike_count"; "mean"] sd ["a.h5"] labels],
       Raise AttributeError).
Proof.
  destruct (main_mean_std_fail_at_plot
              get_timestamp_data_in_range get_stream_data_in_range
              Fixture.mean Fixture.std Fixture.dec_int Fixture.loader
              elements (fun r => CInt 0)
              {| output := None; stats := "spike_count,mean"; mode := "total";
                 t0 := 0; t1 := infinity; channels := Some "0,1";
                 exclude_channels := None; normalize := false;
                 files := ["a.h5"] |}
              (list_to_set [0; 1]) "mean") as (sd & labels & Hrun).
  - intros s Hs. vm_compute in Hs. apply list_elem_of_In in Hs.
    apply list_elem_of_In. simpl in *.
    destruct Hs as [<-|[<-|[]]]; tauto.
  - vm_compute. apply list_elem_of_In. simpl. tauto.
  - by left.
  - vm_compute. reflexivity.
  - repeat constructor.
    exists Fixture.raw, Fixture.rec, [], Fixture.stream, [],
           {| timestamp_entity := Fixture.events |}, [].
    repeat split; reflexivity.
  - discriminate.
  - reflexivity.
  - exists sd, labels. exact Hrun.
Defined.

(** * Properties of [complexity_plot.py] *)

Module ComplexityPlotFacts.

Import ComplexityPlot.

(** The list without its first element is the list without its last
    exactly when all its elements are equal. *)
Lemma shifted_eq {A} (x : A) (l : list A) :
  l = but_last (x :: l) ↔ Forall (fun y => y = x) l.
Proof.
  unfold but_last. revert x. induction l as [|y l IH]; intros x.
  - simpl. split; [constructor | done].
  - change (removelast (x :: y :: l)) with (x :: removelast (y :: l)).
    split.
    + intros [= -> Hl]. constructor; [done |]. by apply IH.
    + intros [-> Hl]%Forall_cons. f_equal. by apply IH.
Qed.

Lemma shifted_neq `{EqDecision A} (x : A) (l : list A) :
  l ≠ but_last (x :: l)
  ↔ ∃ i a b, (x :: l) !! i = Some a ∧ (x :: l) !! S i = Some b ∧ a ≠ b.
Proof.
  split.
  - revert x. induction l as [|y l IH]; intros x Hne; [done |].
    destruct (decide (x = y)) as [->|Hxy].
    + destruct (IH y) as (i & a & b & Ha & Hb & Hab).
      { intros Hl. apply Hne. unfold but_last in *.
        change (removelast (y :: y :: l)) with (y :: removelast (y :: l)).
        by f_equal. }
      by exists (S i), a, b.
    + by exists 0%nat, x, y.
  - intros (i & a & b & Ha & Hb & Hab) Hl. apply shifted_eq in Hl.
    assert (Hall : Forall (fun y => y = x) (x :: l)) by by constructor.
    rewrite Forall_lookup in Hall.
    apply Hab. by rewrite (Hall _ _ Ha), (Hall _ _ Hb).
Qed.

(** Lines 24-27: the comparison of the channel lists shifted by one tells
    whether all entries have the same channels. Then the channels of the
    first entry are printed, otherwise "mixed", which happens exactly when
    two neighbouring entries differ; a result without entries ends the run
    with the IndexError of [channels[0]]. *)
Theorem channels_line_spec (channels : list (list Z)) :
  (∀ e, channels_line channels = Raise e ↔ e = LookupError ∧ channels = [])
  ∧ (∀ c, channels_line channels = Ok (Print "  Channels: {}" [AChannels c])
          ↔ channels ≠ [] ∧ Forall (fun x => x = c) channels)
  ∧ (channels_line channels = Ok (Print "  Channels: mixed" [])
     ↔ ∃ i x y, channels !! i = Some x ∧ channels !! S i = Some y ∧ x ≠ y).
Proof.
  unfold channels_line. destruct channels as [|c0 rest].
  - simpl. split; [| split].
    + intros e. split; [by intros [= <-] | by intros [-> _]].
    + intros c. split; [done | by intros [? _]].
    + split; [done | by intros (i & x & y & ? & _)].
  - change (but_first (c0 :: rest)) with rest.
    destruct (decide (rest = but_last (c0 :: rest))) as [Heq|Hne].
    + simpl. split; [| split].
      * intros e. split; [done | by intros [_ ?]].
      * intros c. split.
        -- intros [= <-]. split; [done |]. constructor; [done |].
           by apply shifted_eq.
        -- by intros [_ [-> _]%Forall_cons].
      * split; [done |]. intros Hex. by apply shifted_neq in Hex.
    + split; [| split].
      * intros e. split; [done | by intros [_ ?]].
      * intros c. split; [done |].
        intros [_ [-> Hall]%Forall_cons]. destruct Hne. by apply shifted_eq.
      * split; [| done]. intros _. by apply shifted_neq.
Qed.

Section Run.

Variable load : string → result blob.
Variable np_mean np_std np_max : list float → float.

Lemma channels_line_ok (channels : list (list Z)) :
  channels ≠ [] → ∃ line, channels_line channels = Ok line.
Proof.
  intros Hne. unfold channels_line. destruct channels as [|c rest]; [done |].
  destruct (decide _); simpl; eauto.
Qed.

Lemma scatter_done cs : ∀ i,
  (scatter i cs).2 = Done ↔ Forall (fun c => ∃ v, c = Values v) cs.
Proof.
  induction cs as [|c cs IH]; intros i; simpl.
  - split; [constructor | done].
  - destruct c as [x|v]; simpl.
    + split; [done |]. by intros [(v & ?) _]%Forall_cons.
    + specialize (IH (S i)). destruct (scatter (S i) cs) as [tr r]. simpl in *.
      rewrite IH. split.
      * intros Hall. constructor; [by exists v | done].
      * by intros [_ ?]%Forall_cons.
Qed.

Lemma scatter_events cs : ∀ i j v,
  cs !! j = Some (Values v) →
  (scatter i cs).2 = Done →
  Scatter (i + j) v ∈ (scatter i cs).1.
Proof.
  induction cs as [|c cs IH]; intros i j v Hj Hdone; [done |].
  simpl in *. destruct c as [x|w]; [done |].
  specialize (IH (S i)). destruct (scatter (S i) cs) as [tr r]. simpl in *.
  destruct j as [|j]; simpl in Hj.
  - injection Hj as ->. rewrite Nat.add_0_r. by left.
  - right. replace (i + S j)%nat with (S i + j)%nat by lia. by apply IH.
Qed.

Lemma maxima_ok cs :
  (∃ ys, all_ok (map (max_of np_max) cs) = Ok ys)
  ↔ Forall (fun c => values c ≠ []) cs.
Proof.
  induction cs as [|c cs IH]; simpl.
  - split; [constructor | eauto].
  - destruct (values c) as [|x l] eqn:Hv.
    + assert (E : max_of np_max c = Raise ValueError)
        by (unfold max_of; by rewrite Hv).
      rewrite E. simpl.
      split; [by intros [ys ?] | by intros [? _]%Forall_cons].
    + assert (E : max_of np_max c = Ok (np_max (x :: l)))
        by (unfold max_of; by rewrite Hv).
      rewrite E. simpl. split.
      * intros [ys Hys]. constructor; [by rewrite Hv |]. apply IH.
        destruct (all_ok _); [eauto | done].
      * intros [_ [ys ->]%IH]%Forall_cons. simpl. eauto.
Qed.

Lemma summary_ok (max : bool) cs :
  (∃ lines, summary np_mean np_std np_max max cs = Ok lines)
  ↔ (max = true → Forall (fun c => values c ≠ []) cs).
Proof.
  unfold summary. destruct max.
  - rewrite <- maxima_ok. split.
    + intros [lines Hl] _. destruct (all_ok _); [eauto | done].
    + intros H. destruct (H eq_refl) as [ys ->]. simpl. eauto.
  - split; [done | eauto].
Qed.



End Run.



End ComplexityPlotFacts.
